(** * AuthContext: the client-side session store, its push reconciler and
      its command gateway (src/contexts/AuthContext.jsx)

    The provider keeps five pieces of React state (user, token, users,
    sessions, loading), two localStorage slots and talks to a REST backend
    and a WebSocket.  The embedding below threads all of that through one
    record and a small exception/state monad, one definition per function of
    the source.  A handler or command runs to completion on the state it
    finds, as the single-threaded event loop has it.  The bulk fetch of
    lines 24-41, the socket set-up of lines 84-104 and the notification
    list are not part of it. *)

From Stdlib Require Import ZArith Ascii.
From stdpp Require Import base strings list gmap pretty.

Local Open Scope string_scope.
Local Open Scope list_scope.
#[local] Set Warnings "-register-all".

(** ** JavaScript values *)

(** What [JSON.parse] can produce, plus [undefined] (the result of reading
    a property that is not there).  Numbers are the integer-valued ones:
    identifiers and counters are all the program compares. *)
Inductive value : Type :=
  | VUndefined
  | VNull
  | VBool (b : bool)
  | VNum (n : Z)
  | VStr (s : string)
  | VArr (items : list value)
  | VObj (fields : list (string * value)).

(** A plain object: its own properties, in insertion order. *)
Abbreviation obj := (list (string * value)).

(** [!v] is [negb (truthy v)]. *)
Definition truthy (v : value) : bool :=
  match v with
  | VUndefined | VNull => false
  | VBool b => b
  | VNum n => negb (Z.eqb n 0)
  | VStr s => negb (String.eqb s "")
  | VArr _ | VObj _ => true
  end.

(** [a || b]. *)
Definition js_or (a b : value) : value := if truthy a then a else b.

(** [a === b].  Arrays and objects compare by reference; every comparison
    in the program has a freshly received value on one side, which shares
    no reference with anything held in state, hence [false]. *)
Definition strict_eq (a b : value) : bool :=
  match a, b with
  | VUndefined, VUndefined => true
  | VNull, VNull => true
  | VBool x, VBool y => Bool.eqb x y
  | VNum x, VNum y => Z.eqb x y
  | VStr x, VStr y => String.eqb x y
  | _, _ => false
  end.

(** [o.k] on a plain object: the property, or [undefined]. *)
Fixpoint get_field (k : string) (o : obj) : value :=
  match o with
  | [] => VUndefined
  | (k', v) :: rest => if String.eqb k k' then v else get_field k rest
  end.

(** Is [k] an own property of [o]? *)
Fixpoint has_field (k : string) (o : obj) : bool :=
  match o with
  | [] => false
  | (k', _) :: rest => String.eqb k k' || has_field k rest
  end.

(** [o[k] = v] while an object literal is being built: an existing property
    keeps its place and takes the new value, a new one goes last. *)
Fixpoint set_field (k : string) (v : value) (o : obj) : obj :=
  match o with
  | [] => [(k, v)]
  | (k', v') :: rest =>
      if String.eqb k k' then (k', v) :: rest else (k', v') :: set_field k v rest
  end.

(** Errors the program can meet. *)
Inductive error : Type :=
  | SyntaxError                 (* JSON.parse / res.json() on malformed text *)
  | TypeError                   (* property read on null or undefined *)
  | NetworkError                (* fetch rejected *)
  | QuotaExceededError          (* localStorage.setItem refused the write *)
  | Error (message : value).    (* new Error(message) *)

(** [v.k] on an arbitrary value.  Reading from [null] or [undefined] throws;
    numbers, booleans, strings and arrays have none of the property names
    the program reads ([id], [type], [data], [detail], [user], ...). *)
Definition get_prop (v : value) (k : string) : error + value :=
  match v with
  | VUndefined | VNull => inl TypeError
  | VObj o => inr (get_field k o)
  | _ => inr VUndefined
  end.

(** ** The platform functions the program calls *)

Class Runtime := {
  (** [JSON.parse]: [None] when it throws. *)
  JSON_parse : string -> option value;
  (** [JSON.stringify]: [None] when it returns [undefined]. *)
  JSON_stringify : value -> option string;
  (** String conversion, as done by template literals and by
      [localStorage.setItem]. *)
  ToString : value -> string
}.

(** ** The store *)

(** One line of the browser console. *)
Inductive log_entry : Type :=
  | console_error (label : string) (e : error)
  | console_warn (label : string) (v : value).

(** One call of [fetch]. *)
Record request : Type := {
  req_method : string;
  req_url : string;
  req_headers : list (string * string);
  req_body : option string
}.

(** What [fetch] resolves to: [res.ok], and what [res.json()] resolves to
    ([None] when the body is not JSON). *)
Record response : Type := {
  res_ok : bool;
  res_body : option value
}.

(** [fetch] either rejects (no connection) or resolves to a response. *)
Inductive fetch_outcome : Type :=
  | Rejected
  | Responded (res : response).

(** The provider's state ([useState] cells of lines 9-14), the two
    localStorage slots, and a record of what was logged and requested. *)
Record store : Type := {
  user : value;
  users : list obj;
  sessions : list obj;
  loading : bool;
  token : value;
  localStorage : gmap string string;
  console : list log_entry;
  network : list request
}.

Definition setUser (v : value) (st : store) : store :=
  {| user := v; users := users st; sessions := sessions st;
     loading := loading st; token := token st;
     localStorage := localStorage st; console := console st;
     network := network st |}.

Definition setUsers (f : list obj -> list obj) (st : store) : store :=
  {| user := user st; users := f (users st); sessions := sessions st;
     loading := loading st; token := token st;
     localStorage := localStorage st; console := console st;
     network := network st |}.

Definition setSessions (f : list obj -> list obj) (st : store) : store :=
  {| user := user st; users := users st; sessions := f (sessions st);
     loading := loading st; token := token st;
     localStorage := localStorage st; console := console st;
     network := network st |}.

Definition setLoading (b : bool) (st : store) : store :=
  {| user := user st; users := users st; sessions := sessions st;
     loading := b; token := token st;
     localStorage := localStorage st; console := console st;
     network := network st |}.

Definition setToken (v : value) (st : store) : store :=
  {| user := user st; users := users st; sessions := sessions st;
     loading := loading st; token := v;
     localStorage := localStorage st; console := console st;
     network := network st |}.

Definition withStorage (f : gmap string string -> gmap string string)
    (st : store) : store :=
  {| user := user st; users := users st; sessions := sessions st;
     loading := loading st; token := token st;
     localStorage := f (localStorage st); console := console st;
     network := network st |}.

Definition log (e : log_entry) (st : store) : store :=
  {| user := user st; users := users st; sessions := sessions st;
     loading := loading st; token := token st;
     localStorage := localStorage st; console := console st ++ [e];
     network := network st |}.

Definition sent (r : request) (st : store) : store :=
  {| user := user st; users := users st; sessions := sessions st;
     loading := loading st; token := token st;
     localStorage := localStorage st; console := console st;
     network := network st ++ [r] |}.

(** The state on mount: lines 9-14, over whatever localStorage holds. *)
Definition initial (storage : gmap string string) : store :=
  {| user := VNull; users := []; sessions := []; loading := true;
     token := VNull; localStorage := storage; console := []; network := [] |}.

(** ** Computations that may throw *)

Inductive result (A : Type) : Type :=
  | Ok (a : A)
  | Throw (e : error).
Arguments Ok {A} a.
Arguments Throw {A} e.

Definition M (A : Type) : Type := store -> result A * store.

#[export] Instance M_ret : MRet M := fun A a st => (Ok a, st).
#[export] Instance M_bind : MBind M := fun A B k m st =>
  match m st with
  | (Ok a, st') => k a st'
  | (Throw e, st') => (Throw e, st')
  end.

Definition throw {A : Type} (e : error) : M A := fun st => (Throw e, st).

(** [try { body } catch (error) { handler }]. *)
Definition try_catch {A : Type} (body : M A) (handler : error -> M A) : M A :=
  fun st =>
    match body st with
    | (Ok a, st') => (Ok a, st')
    | (Throw e, st') => handler e st'
    end.

(** A state update, as a computation. *)
Definition modify (f : store -> store) : M unit := fun st => (Ok tt, f st).

(** Reading the state the closure sees. *)
Definition gets {A : Type} (f : store -> A) : M A := fun st => (Ok (f st), st).

(** Lifting a property read. *)
Definition prop (v : value) (k : string) : M value :=
  match get_prop v k with
  | inl e => throw e
  | inr x => mret x
  end.

(** [localStorage.getItem], [setItem] and [removeItem]. *)
Definition getItem (k : string) : M (option string) :=
  gets (fun st => localStorage st !! k).
Definition setItem (k s : string) : store -> store := withStorage (insert k s).
Definition removeItem (k : string) : store -> store := withStorage (delete k).

(** A string from localStorage in a condition: [null] and the empty string
    are falsy. *)
Definition present (s : option string) : bool :=
  match s with
  | Some s => negb (String.eqb s "")
  | None => false
  end.

Definition API_BASE_URL : string := "http://localhost:8001".

(** ** Push notifications *)

(** A decoded WebSocket frame, one constructor per [case] of the switch on
    [message.type] (lines 47-77), carrying the parts of [message.data] that
    the case reads.  The records of the two mirrors and of the payloads are
    plain objects, as the backend sends them; identifiers, statuses and
    timestamps are any value, [undefined] when the frame lacks them. *)
Inductive message : Type :=
  | user_created (data_user : obj)
  | user_updated (user_id : value) (data_user : obj)
  | user_deleted (user_id : value)
  | session_created (data : obj)
  | session_updated (session_id status updated_at : value)
  | session_deleted (session_id : value)
  | unknown (type : value).

(** [u.id === id] for a record of a mirror. *)
Definition has_id (id : value) (u : obj) : bool :=
  strict_eq (get_field "id" u) id.

(** [user && user.id === id] (lines 53 and 59). *)
Definition is_current (user : value) (id : value) : bool :=
  truthy user &&
  match get_prop user "id" with
  | inr x => strict_eq x id
  | inl _ => false
  end.

(** [{ ...s, status: status, updated_at: updated_at }] (line 70). *)
Definition patch_session (status updated_at : value) (s : obj) : obj :=
  set_field "updated_at" updated_at (set_field "status" status s).

(** Lines 44-81.  [event_data] is [JSON.parse(event.data)], [None] when the
    text does not parse; the [catch] logs and leaves the state alone. *)
Definition handleWsMessage (event_data : option message) (st : store) : store :=
  match event_data with
  | None => log (console_error "Error handling WebSocket message:" SyntaxError) st
  | Some (user_created data_user) =>
      setUsers (fun prev => prev ++ [data_user]) st
  | Some (user_updated user_id data_user) =>
      let st' :=
        setUsers (fun prev =>
          map (fun u => if has_id user_id u then data_user else u) prev) st in
      if is_current (user st) user_id then setUser (VObj data_user) st' else st'
  | Some (user_deleted user_id) =>
      let st' :=
        setUsers (fun prev => List.filter (fun u => negb (has_id user_id u)) prev) st in
      if is_current (user st) user_id then
        removeItem "user" (removeItem "token" (setToken VNull (setUser VNull st')))
      else st'
  | Some (session_created data) =>
      setSessions (fun prev => prev ++ [data]) st
  | Some (session_updated session_id status updated_at) =>
      setSessions (fun prev =>
        map (fun s => if has_id session_id s
                      then patch_session status updated_at s else s) prev) st
  | Some (session_deleted session_id) =>
      setSessions (fun prev => List.filter (fun s => negb (has_id session_id s)) prev) st
  | Some (unknown type) =>
      log (console_warn "Unknown WebSocket message type:" type) st
  end.

(** Lines 147-158 (the socket handle is not part of the model). *)
Definition logout (st : store) : store :=
  removeItem "token"
    (removeItem "user"
      (setSessions (fun _ => [])
        (setUsers (fun _ => []) (setToken VNull (setUser VNull st))))).

Section Operations.
Context `{Runtime}.
(** The backend, as seen through [fetch]. *)
Variable backend : request -> fetch_outcome.

Definition fetch (r : request) : M response := fun st =>
  match backend r with
  | Rejected => (Throw NetworkError, sent r st)
  | Responded res => (Ok res, sent r st)
  end.

(** [await res.json()]. *)
Definition json (res : response) : M value :=
  match res_body res with
  | Some v => mret v
  | None => throw SyntaxError
  end.

(** Lines 18-21. *)
Definition authHeaders (token : value) : list (string * string) :=
  [("Content-Type", "application/json");
   ("Authorization",
    if truthy token then "Bearer " +:+ ToString token else "")].

(** Lines 112-120: the effect run once on mount. *)
Definition restore : M unit :=
  storedUser ← getItem "user";
  storedToken ← getItem "token";
  (if present storedUser && present storedToken then
     match JSON_parse (default "" storedUser) with
     | None => throw SyntaxError
     | Some u =>
         modify (setUser u);;
         modify (setToken (VStr (default "" storedToken)))
     end
   else mret tt);;
  modify (setLoading false).

(** Lines 123-144. *)
Definition login (username password : value) : M value :=
  try_catch
    (res ← fetch {| req_method := "POST";
                    req_url := API_BASE_URL +:+ "/auth/login";
                    req_headers := [("Content-Type", "application/json")];
                    req_body := JSON_stringify
                      (VObj [("username", username); ("password", password)]) |};
     if negb (res_ok res) then
       errorData ← json res;
       detail ← prop errorData "detail";
       mret (VObj [("success", VBool false);
                   ("error", js_or detail (VStr "Login failed"))])
     else
       data ← json res;
       data_user ← prop data "user";
       modify (setUser data_user);;
       access_token ← prop data "access_token";
       modify (setToken access_token);;
       modify (setItem "user" (default "undefined" (JSON_stringify data_user)));;
       modify (setItem "token" (ToString access_token));;
       force ← prop data "force_password_change";
       mret (VObj [("success", VBool true); ("forcePasswordChange", force)]))
    (fun e =>
       modify (log (console_error "Login error:" e));;
       mret (VObj [("success", VBool false); ("error", VStr "Login error")])).

(** The shape the six commands share (lines 161-286): the guard on the
    token, one request, the non-ok branch that throws the reason, and the
    [catch] that logs it and returns the failure value. *)
Definition command (label generic : string) (failure : value)
    (req : value -> request) (on_ok : response -> M value) : M value :=
  token ← gets token;
  if negb (truthy token) then mret failure
  else
    try_catch
      (res ← fetch (req token);
       if negb (res_ok res) then
         errorData ← json res;
         detail ← prop errorData "detail";
         throw (Error (js_or detail (VStr generic)))
       else on_ok res)
      (fun e => modify (log (console_error label e));; mret failure).

(** Lines 161-180. *)
Definition createUser (userData : value) : M value :=
  command "Create user error:" "Failed to create user" VNull
    (fun token => {| req_method := "POST";
                     req_url := API_BASE_URL +:+ "/users/";
                     req_headers := authHeaders token;
                     req_body := JSON_stringify userData |})
    json.

(** Lines 183-202. *)
Definition updateUserById (id updates : value) : M value :=
  command "Update user error:" "Failed to update user" VNull
    (fun token => {| req_method := "PUT";
                     req_url := API_BASE_URL +:+ "/users/" +:+ ToString id;
                     req_headers := authHeaders token;
                     req_body := JSON_stringify updates |})
    json.

(** Lines 205-222. *)
Definition deleteUser (id : value) : M value :=
  command "Delete user error:" "Failed to delete user" (VBool false)
    (fun token => {| req_method := "DELETE";
                     req_url := API_BASE_URL +:+ "/users/" +:+ ToString id;
                     req_headers := authHeaders token;
                     req_body := None |})
    (fun _ => mret (VBool true)).

(** Lines 225-244. *)
Definition createSession (sessionData : value) : M value :=
  command "Create session error:" "Failed to create session" VNull
    (fun token => {| req_method := "POST";
                     req_url := API_BASE_URL +:+ "/sessions/";
                     req_headers := authHeaders token;
                     req_body := JSON_stringify sessionData |})
    json.

(** Lines 247-266. *)
Definition updateSession (id updates : value) : M value :=
  command "Update session error:" "Failed to update session" VNull
    (fun token => {| req_method := "PUT";
                     req_url := API_BASE_URL +:+ "/sessions/" +:+ ToString id;
                     req_headers := authHeaders token;
                     req_body := JSON_stringify updates |})
    json.

(** Lines 269-286. *)
Definition deleteSession (id : value) : M value :=
  command "Delete session error:" "Failed to delete session" (VBool false)
    (fun token => {| req_method := "DELETE";
                     req_url := API_BASE_URL +:+ "/sessions/" +:+ ToString id;
                     req_headers := authHeaders token;
                     req_body := None |})
    (fun _ => mret (VBool true)).

(** The six commands the provider hands out (lines 301-306), as one
    type, so that a statement can range over all of them. *)
Inductive gateway_call : Type :=
  | CreateUser (userData : value)
  | UpdateUserById (id updates : value)
  | DeleteUser (id : value)
  | CreateSession (sessionData : value)
  | UpdateSession (id updates : value)
  | DeleteSession (id : value).

Definition invoke (c : gateway_call) : M value :=
  match c with
  | CreateUser userData => createUser userData
  | UpdateUserById id updates => updateUserById id updates
  | DeleteUser id => deleteUser id
  | CreateSession sessionData => createSession sessionData
  | UpdateSession id updates => updateSession id updates
  | DeleteSession id => deleteSession id
  end.

End Operations.

(** What each command returns when it fails ... *)
Definition failure_of (c : gateway_call) : value :=
  match c with
  | DeleteUser _ | DeleteSession _ => VBool false
  | _ => VNull
  end.

(** ... what it returns when the backend answers ok with body [record] ... *)
Definition success_of (c : gateway_call) (record : value) : value :=
  match c with
  | DeleteUser _ | DeleteSession _ => VBool true
  | _ => record
  end.

(** ... the label it logs under, and its generic reason. *)
Definition label_of (c : gateway_call) : string :=
  match c with
  | CreateUser _ => "Create user error:"
  | UpdateUserById _ _ => "Update user error:"
  | DeleteUser _ => "Delete user error:"
  | CreateSession _ => "Create session error:"
  | UpdateSession _ _ => "Update session error:"
  | DeleteSession _ => "Delete session error:"
  end.

Definition generic_of (c : gateway_call) : string :=
  match c with
  | CreateUser _ => "Failed to create user"
  | UpdateUserById _ _ => "Failed to update user"
  | DeleteUser _ => "Failed to delete user"
  | CreateSession _ => "Failed to create session"
  | UpdateSession _ _ => "Failed to update session"
  | DeleteSession _ => "Failed to delete session"
  end.

(** ** A reference runtime

    The theorems below hold for every [Runtime].  To run the program on
    concrete inputs we also give one: a reader and a printer for the
    fragment of JSON whose numbers are integers and whose strings use the
    short escapes only.  The examples stay inside that fragment. *)

Module Ref.

Definition quote : ascii := "034"%char.
Definition backslash : ascii := "092"%char.

Definition is_ws (c : ascii) : bool :=
  match c with
  | " "%char | "009"%char | "010"%char | "013"%char => true
  | _ => false
  end.

Fixpoint skip_ws (s : string) : string :=
  match s with
  | String c rest => if is_ws c then skip_ws rest else s
  | EmptyString => s
  end.

Definition digit (c : ascii) : option Z :=
  let n := Z.of_nat (nat_of_ascii c) in
  if (48 <=? n)%Z && (n <=? 57)%Z then Some (n - 48)%Z else None.

Fixpoint digits (acc : Z) (s : string) : Z * string :=
  match s with
  | String c rest =>
      match digit c with
      | Some d => digits (10 * acc + d)%Z rest
      | None => (acc, s)
      end
  | EmptyString => (acc, s)
  end.

(** An integer literal without sign; a fraction or an exponent is outside
    the fragment. *)
Definition natural (s : string) : option (Z * string) :=
  match s with
  | String c rest =>
      match digit c with
      | Some d =>
          let '(n, rest') := if Z.eqb d 0 then (0%Z, rest) else digits d rest in
          match rest' with
          | String "."%char _ | String "e"%char _ | String "E"%char _ => None
          | _ => Some (n, rest')
          end
      | None => None
      end
  | EmptyString => None
  end.

(** The characters after an opening quote, up to the closing one. *)
Fixpoint string_body (s : string) : option (string * string) :=
  match s with
  | EmptyString => None
  | String c rest =>
      if Ascii.eqb c quote then Some ("", rest)
      else if Ascii.eqb c backslash then
        match rest with
        | String e rest' =>
            let unescaped :=
              match e with
              | "n"%char => Some "010"%char
              | "t"%char => Some "009"%char
              | "r"%char => Some "013"%char
              | "b"%char => Some "008"%char
              | "f"%char => Some "012"%char
              | "/"%char => Some "/"%char
              | _ => if Ascii.eqb e quote then Some quote
                     else if Ascii.eqb e backslash then Some backslash
                     else None
              end in
            match unescaped, string_body rest' with
            | Some c', Some (str, rest'') => Some (String c' str, rest'')
            | _, _ => None
            end
        | EmptyString => None
        end
      else
        match string_body rest with
        | Some (str, rest') => Some (String c str, rest')
        | None => None
        end
  end.

(** [expect word v s]: [v] if [s] starts with [word]. *)
Fixpoint expect (word : string) (v : value) (s : string) : option (value * string) :=
  match word, s with
  | EmptyString, _ => Some (v, s)
  | String w word', String c rest =>
      if Ascii.eqb w c then expect word' v rest else None
  | String _ _, EmptyString => None
  end.

Fixpoint parse_value (fuel : nat) (s : string) : option (value * string) :=
  match fuel with
  | O => None
  | S fuel =>
      match skip_ws s with
      | String "n"%char rest => expect "ull" VNull rest
      | String "t"%char rest => expect "rue" (VBool true) rest
      | String "f"%char rest => expect "alse" (VBool false) rest
      | String "["%char rest =>
          match skip_ws rest with
          | String "]"%char rest' => Some (VArr [], rest')
          | _ => parse_items fuel [] rest
          end
      | String "{"%char rest =>
          match skip_ws rest with
          | String "}"%char rest' => Some (VObj [], rest')
          | _ => parse_members fuel [] rest
          end
      | String "-"%char rest =>
          match natural rest with
          | Some (n, rest') => Some (VNum (- n), rest')
          | None => None
          end
      | String c rest =>
          if Ascii.eqb c quote then
            match string_body rest with
            | Some (str, rest') => Some (VStr str, rest')
            | None => None
            end
          else
            match natural (String c rest) with
            | Some (n, rest') => Some (VNum n, rest')
            | None => None
            end
      | EmptyString => None
      end
  end
with parse_items (fuel : nat) (acc : list value) (s : string)
    : option (value * string) :=
  match fuel with
  | O => None
  | S fuel =>
      match parse_value fuel s with
      | Some (v, rest) =>
          match skip_ws rest with
          | String ","%char rest' => parse_items fuel (acc ++ [v]) rest'
          | String "]"%char rest' => Some (VArr (acc ++ [v]), rest')
          | _ => None
          end
      | None => None
      end
  end
with parse_members (fuel : nat) (acc : obj) (s : string)
    : option (value * string) :=
  match fuel with
  | O => None
  | S fuel =>
      match skip_ws s with
      | String c rest =>
          if Ascii.eqb c quote then
            match string_body rest with
            | Some (k, rest') =>
                match skip_ws rest' with
                | String ":"%char rest'' =>
                    match parse_value fuel rest'' with
                    | Some (v, rest3) =>
                        match skip_ws rest3 with
                        | String ","%char rest4 =>
                            parse_members fuel (set_field k v acc) rest4
                        | String "}"%char rest4 =>
                            Some (VObj (set_field k v acc), rest4)
                        | _ => None
                        end
                    | None => None
                    end
                | _ => None
                end
            | None => None
            end
          else None
      | EmptyString => None
      end
  end.

Definition parse (s : string) : option value :=
  match parse_value (2 * String.length s + 2) s with
  | Some (v, rest) =>
      match skip_ws rest with
      | EmptyString => Some v
      | _ => None
      end
  | None => None
  end.

Fixpoint escape (s : string) : string :=
  match s with
  | EmptyString => ""
  | String c rest =>
      if Ascii.eqb c quote || Ascii.eqb c backslash
      then String backslash (String c (escape rest))
      else String c (escape rest)
  end.

Definition quoted (s : string) : string :=
  String quote (escape s +:+ String quote "").

Definition commas (parts : list string) : string := String.concat "," parts.

(** The JSON text of a value; [undefined] prints as [null] inside an
    array and drops its property inside an object. *)
Fixpoint text (v : value) : string :=
  match v with
  | VUndefined | VNull => "null"
  | VBool true => "true"
  | VBool false => "false"
  | VNum n => pretty n
  | VStr s => quoted s
  | VArr items => "[" +:+ commas (map text items) +:+ "]"
  | VObj fields =>
      "{" +:+ commas (omap id (map (fun kv =>
                match kv with
                | (_, VUndefined) => None
                | (k, x) => Some (quoted k +:+ ":" +:+ text x)
                end) fields)) +:+ "}"
  end.

Definition stringify (v : value) : option string :=
  match v with
  | VUndefined => None
  | _ => Some (text v)
  end.

Fixpoint to_string (v : value) : string :=
  match v with
  | VUndefined => "undefined"
  | VNull => "null"
  | VBool true => "true"
  | VBool false => "false"
  | VNum n => pretty n
  | VStr s => s
  | VArr items =>
      commas (map (fun x => match x with
                            | VUndefined | VNull => ""
                            | _ => to_string x
                            end) items)
  | VObj _ => "[object Object]"
  end.

#[export] Instance runtime : Runtime :=
  {| JSON_parse := parse; JSON_stringify := stringify; ToString := to_string |}.

End Ref.

(** ** The bulk load *)

(** A reply read as a mirror: an array of plain objects. *)
Fixpoint as_records_items (items : list value) : option (list obj) :=
  match items with
  | [] => Some []
  | VObj o :: rest =>
      match as_records_items rest with
      | Some l => Some (o :: l)
      | None => None
      end
  | _ :: _ => None
  end.

Definition as_records (v : value) : option (list obj) :=
  match v with
  | VArr items => as_records_items items
  | _ => None
  end.

Section BulkLoad.
Context `{Runtime}.
Variable backend : request -> fetch_outcome.

(** [Promise.all([fetch(a), fetch(b)])]: both requests leave, in this
    order, before anything is awaited; the whole rejects when one does. *)
Definition fetch_both (a b : request) : M (response * response) := fun st =>
  match backend a, backend b with
  | Responded ra, Responded rb => (Ok (ra, rb), sent b (sent a st))
  | _, _ => (Throw NetworkError, sent b (sent a st))
  end.

Definition users_request (token : value) : request :=
  {| req_method := "GET"; req_url := API_BASE_URL +:+ "/users/";
     req_headers := authHeaders token; req_body := None |}.

Definition sessions_request (token : value) : request :=
  {| req_method := "GET"; req_url := API_BASE_URL +:+ "/sessions/";
     req_headers := authHeaders token; req_body := None |}.

(** Lines 27-35: the [try] block up to the two parsed bodies. *)
Definition fetchInitialData_bodies (token : value) : M (value * value) :=
  both ← fetch_both (users_request token) (sessions_request token);
  if negb (res_ok both.1) || negb (res_ok both.2)
  then throw (Error (VStr "Failed to fetch data"))
  else
    usersData ← json both.1;
    sessionsData ← json both.2;
    mret (usersData, sessionsData).

(** Lines 24-41.  The function never throws.  [None] stands for a reply
    that is not an array of plain objects: the mirrors of the model cannot
    hold it. *)
Definition fetchInitialData (st : store) : option store :=
  if negb (truthy (token st)) then Some st
  else
    match fetchInitialData_bodies (token st) st with
    | (Ok (usersData, sessionsData), st') =>
        match as_records usersData, as_records sessionsData with
        | Some us, Some ss =>
            Some (setSessions (fun _ => ss) (setUsers (fun _ => us) st'))
        | _, _ => None
        end
    | (Throw e, st') =>
        Some (log (console_error "Error fetching initial data:" e) st')
    end.

End BulkLoad.

(** The request of [login] (lines 125-129). *)
Definition login_request `{Runtime} (username password : value) : request :=
  {| req_method := "POST";
     req_url := API_BASE_URL +:+ "/auth/login";
     req_headers := [("Content-Type", "application/json")];
     req_body := JSON_stringify
       (VObj [("username", username); ("password", password)]) |}.

(** The HTTP method of each command. *)
Definition method_of (c : gateway_call) : string :=
  match c with
  | CreateUser _ | CreateSession _ => "POST"
  | UpdateUserById _ _ | UpdateSession _ _ => "PUT"
  | DeleteUser _ | DeleteSession _ => "DELETE"
  end.

(** Does the command read the body of an ok reply? *)
Definition reads_body (c : gateway_call) : bool :=
  match c with
  | DeleteUser _ | DeleteSession _ => false
  | _ => true
  end.

(** A backend that is not reachable, and one that answers every request
    with one fixed response. *)
Definition unreachable : request -> fetch_outcome := fun _ => Rejected.
Definition answering (res : response) : request -> fetch_outcome :=
  fun _ => Responded res.

(** A backend that serves the two collections. *)
Definition serving (users_body sessions_body : value) : request -> fetch_outcome :=
  fun r =>
    if String.eqb (req_url r) (API_BASE_URL +:+ "/users/")
    then Responded {| res_ok := true; res_body := Some users_body |}
    else Responded {| res_ok := true; res_body := Some sessions_body |}.

(** ** Vocabulary of the statements *)

(** How many entries of a mirror carry the identifier [id]. *)
Definition count_id (id : value) (l : list obj) : nat :=
  length (List.filter (has_id id) l).

(** Dropping the entries with identifier [id] (lines 58 and 73). *)
Definition drop_id (id : value) (l : list obj) : list obj :=
  List.filter (fun u => negb (has_id id u)) l.

(** [null] or [undefined]. *)
Definition nullish (v : value) : bool :=
  match v with
  | VUndefined | VNull => true
  | _ => false
  end.


(** A store that differs from [st] in what was logged and requested only. *)
Definition same_state (st st' : store) : Prop :=
  user st' = user st /\ users st' = users st /\ sessions st' = sessions st /\
  loading st' = loading st /\ token st' = token st /\
  localStorage st' = localStorage st.

(** Sample records and a sample authenticated store, used to run the
    program. *)
Definition alice : obj :=
  [("id", VNum 5); ("username", VStr "alice"); ("role", VStr "admin")].
Definition bob : obj :=
  [("id", VNum 6); ("username", VStr "bob"); ("role", VStr "trainee")].
Definition intro_session : obj :=
  [("id", VNum 1); ("title", VStr "Intro"); ("status", VStr "scheduled");
   ("updated_at", VStr "T1")].

Definition signed_in : store :=
  {| user := VObj alice; users := [alice; bob]; sessions := [intro_session];
     loading := false; token := VStr "tok";
     localStorage := <["user" := Ref.text (VObj alice)]> (<["token" := "tok"]> ∅);
     console := []; network := [] |}.

(** A backend that refuses every request with the reason "Username already
    exists", and one that accepts every request and answers [record]. *)
Definition refusing : request -> fetch_outcome :=
  fun _ => Responded {| res_ok := false;
                        res_body := Some (VObj [("detail", VStr "Username already exists")]) |}.
Definition accepting (record : value) : request -> fetch_outcome :=
  fun _ => Responded {| res_ok := true; res_body := Some record |}.

(** ** The credential under any frame *)

(** The part of the store that lines 53-55 and 59-64 write. *)
Record credential : Type := {
  cred_user : value;
  cred_token : value;
  cred_storage : gmap string string
}.

Definition credential_of (st : store) : credential :=
  {| cred_user := user st; cred_token := token st;
     cred_storage := localStorage st |}.

Definition paired_credential (c : credential) : Prop :=
  nullish (cred_user c) = nullish (cred_token c).

(** What lines 44-81 do to the credential, for any parsed frame
    [message] (not only the well-shaped ones of [message]) and for the
    principal [captured] by the callback (the [user] of the render that
    created it, line 81), which a frame handled before the next render
    still sees.  A read from a missing [message.data] throws and is caught
    at line 78.  The updates of the two mirrors are left to
    [handleWsMessage]. *)
Definition handleWsCredential (captured : value) (message : value)
    (c : credential) : credential :=
  match get_prop message "type" with
  | inl _ => c
  | inr type =>
      if strict_eq type (VStr "user_updated") then
        if truthy captured then
          match get_prop captured "id", get_prop message "data" with
          | inr id, inr data =>
              match get_prop data "user_id" with
              | inr user_id =>
                  if strict_eq id user_id then
                    match get_prop data "user" with
                    | inr data_user =>
                        {| cred_user := data_user; cred_token := cred_token c;
                           cred_storage := cred_storage c |}
                    | inl _ => c
                    end
                  else c
              | inl _ => c
              end
          | _, _ => c
          end
        else c
      else if strict_eq type (VStr "user_deleted") then
        if truthy captured then
          match get_prop captured "id", get_prop message "data" with
          | inr id, inr data =>
              match get_prop data "user_id" with
              | inr user_id =>
                  if strict_eq id user_id then
                    {| cred_user := VNull; cred_token := VNull;
                       cred_storage :=
                         delete "user" (delete "token" (cred_storage c)) |}
                  else c
              | inl _ => c
              end
          | _, _ => c
          end
        else c
      else c
  end.

(** The frame a well-shaped message was decoded from. *)
Definition frame_of (m : message) : value :=
  match m with
  | user_created data_user =>
      VObj [("type", VStr "user_created");
            ("data", VObj [("user", VObj data_user)])]
  | user_updated user_id data_user =>
      VObj [("type", VStr "user_updated");
            ("data", VObj [("user_id", user_id); ("user", VObj data_user)])]
  | user_deleted user_id =>
      VObj [("type", VStr "user_deleted");
            ("data", VObj [("user_id", user_id)])]
  | session_created data =>
      VObj [("type", VStr "session_created"); ("data", VObj data)]
  | session_updated session_id status updated_at =>
      VObj [("type", VStr "session_updated");
            ("data", VObj [("session_id", session_id); ("status", status);
                           ("updated_at", updated_at)])]
  | session_deleted session_id =>
      VObj [("type", VStr "session_deleted");
            ("data", VObj [("session_id", session_id)])]
  | unknown type => VObj [("type", type)]
  end.

(** [unknown] stands for the [default] branch: its type is none of the
    two that touch the credential. *)
Definition default_branch (m : message) : Prop :=
  match m with
  | unknown type =>
      strict_eq type (VStr "user_updated") = false /\
      strict_eq type (VStr "user_deleted") = false
  | _ => True
  end.

(** ** Signing in on a storage that may refuse a write *)

Section LoginStorage.
Context `{Runtime}.
Variable backend : request -> fetch_outcome.
(** Does the storage, holding [m], take the write of [s] under [k]? *)
Variable accepts : gmap string string -> string -> string -> bool.

(** [localStorage.setItem(k, s)]: the write, or [QuotaExceededError] and
    no write. *)
Definition setItem_or_throw (k s : string) : M unit := fun st =>
  if accepts (localStorage st) k s then (Ok tt, setItem k s st)
  else (Throw QuotaExceededError, st).

(** Lines 123-144 again, with the two writes of lines 137-138 able to
    throw inside the [try]. *)
Definition login_on (username password : value) : M value :=
  try_catch
    (res ← fetch backend
             {| req_method := "POST";
                req_url := API_BASE_URL +:+ "/auth/login";
                req_headers := [("Content-Type", "application/json")];
                req_body := JSON_stringify
                  (VObj [("username", username); ("password", password)]) |};
     if negb (res_ok res) then
       errorData ← json res;
       detail ← prop errorData "detail";
       mret (VObj [("success", VBool false);
                   ("error", js_or detail (VStr "Login failed"))])
     else
       data ← json res;
       data_user ← prop data "user";
       modify (setUser data_user);;
       access_token ← prop data "access_token";
       modify (setToken access_token);;
       setItem_or_throw "user" (default "undefined" (JSON_stringify data_user));;
       setItem_or_throw "token" (ToString access_token);;
       force ← prop data "force_password_change";
       mret (VObj [("success", VBool true); ("forcePasswordChange", force)]))
    (fun e =>
       modify (log (console_error "Login error:" e));;
       mret (VObj [("success", VBool false); ("error", VStr "Login error")])).

End LoginStorage.

(** A storage that takes every write, and one that is full. *)
Definition roomy : gmap string string -> string -> string -> bool :=
  fun _ _ _ => true.
Definition full : gmap string string -> string -> string -> bool :=
  fun _ _ _ => false.

(** * Properties *)

(** ** The reference runtime at work *)

Example parse_text :
  let v := VObj [("id", VNum 5); ("role", VStr "admin");
                 ("tags", VArr [VNum 1; VNum (-2); VNull; VBool true])] in
  Ref.parse (Ref.text v) = Some v.
Proof. vm_compute. reflexivity. Qed.

Example parse_spaces : Ref.parse " [ 1 , { } , null ] " = Some (VArr [VNum 1; VObj []; VNull]).
Proof. vm_compute. reflexivity. Qed.

Example parse_malformed :
  Ref.parse "undefined" = None /\ Ref.parse "{" = None /\ Ref.parse "" = None.
Proof. vm_compute. auto. Qed.

(** ** Records *)

Lemma get_set_same (k : string) (v : value) (o : obj) :
  get_field k (set_field k v o) = v.
Proof.
  induction o as [|[k' v'] rest IH]; simpl.
  - by rewrite String.eqb_refl.
  - destruct (String.eqb k k') eqn:E; simpl; rewrite E; [done | exact IH].
Qed.

Lemma get_set_other (k k' : string) (v : value) (o : obj) :
  k <> k' -> get_field k' (set_field k v o) = get_field k' o.
Proof.
  intros Hne. induction o as [|[k0 v0] rest IH]; simpl.
  - destruct (String.eqb k' k) eqn:E; [|done].
    apply String.eqb_eq in E. congruence.
  - destruct (String.eqb k k0) eqn:E; simpl.
    + apply String.eqb_eq in E. subst k0.
      destruct (String.eqb k' k) eqn:E'; [|done].
      apply String.eqb_eq in E'. congruence.
    + by rewrite IH.
Qed.

Lemma has_set_same (k : string) (v : value) (o : obj) :
  has_field k (set_field k v o) = true.
Proof.
  induction o as [|[k' v'] rest IH]; simpl.
  - by rewrite String.eqb_refl.
  - destruct (String.eqb k k') eqn:E; simpl; rewrite E; [done | exact IH].
Qed.

Lemma has_set_other (k k' : string) (v : value) (o : obj) :
  k <> k' -> has_field k' (set_field k v o) = has_field k' o.
Proof.
  intros Hne. induction o as [|[k0 v0] rest IH]; simpl.
  - destruct (String.eqb k' k) eqn:E; [|done].
    apply String.eqb_eq in E. congruence.
  - destruct (String.eqb k k0) eqn:E; simpl; [done | by rewrite IH].
Qed.

(** A property that is not there reads as [undefined]. *)
Lemma get_field_absent (k : string) (o : obj) :
  has_field k o = false -> get_field k o = VUndefined.
Proof.
  induction o as [|[k' v'] rest IH]; simpl; [done|].
  destruct (String.eqb k k'); simpl; [done | exact IH].
Qed.

(** The spread of line 70, property by property. *)
Lemma patch_session_fields (status updated_at : value) (s : obj) :
  get_field "status" (patch_session status updated_at s) = status /\
  get_field "updated_at" (patch_session status updated_at s) = updated_at /\
  (forall k, k <> "status" -> k <> "updated_at" ->
     get_field k (patch_session status updated_at s) = get_field k s /\
     has_field k (patch_session status updated_at s) = has_field k s).
Proof.
  unfold patch_session. repeat split.
  - rewrite get_set_other by done. apply get_set_same.
  - apply get_set_same.
  - by rewrite !get_set_other.
  - by rewrite !has_set_other.
Qed.

(** ** Mirrors *)

Lemma count_id_app (id : value) (l1 l2 : list obj) :
  count_id id (l1 ++ l2) = (count_id id l1 + count_id id l2)%nat.
Proof. unfold count_id. by rewrite List.filter_app, length_app. Qed.

Lemma drop_id_absent (id : value) (l : list obj) :
  count_id id l = 0%nat -> drop_id id l = l.
Proof.
  unfold count_id, drop_id. induction l as [|u l IH]; simpl; [done|].
  destruct (has_id id u); simpl; [done|]. intros Hc. by rewrite IH.
Qed.

Lemma count_id_drop (id : value) (l : list obj) :
  count_id id (drop_id id l) = 0%nat.
Proof.
  unfold count_id, drop_id. induction l as [|u l IH]; simpl; [done|].
  destruct (has_id id u) eqn:E; simpl; [exact IH|]. by rewrite E.
Qed.

Lemma drop_id_idem (id : value) (l : list obj) :
  drop_id id (drop_id id l) = drop_id id l.
Proof. apply drop_id_absent, count_id_drop. Qed.

Lemma count_id_single (id : value) (u : obj) :
  count_id id [u] = if has_id id u then 1%nat else 0%nat.
Proof. unfold count_id. simpl. by destruct (has_id id u). Qed.

(** Replacing the entries with identifier [id] (lines 52 and 70). *)
Lemma replace_absent (id : value) (f : obj -> obj) (l : list obj) :
  count_id id l = 0%nat -> map (fun u => if has_id id u then f u else u) l = l.
Proof.
  unfold count_id. induction l as [|u l IH]; simpl; [done|].
  destruct (has_id id u); simpl; [done|]. intros Hc. by rewrite IH.
Qed.

(** ** The store *)

Lemma store_eq (a b : store) :
  user a = user b -> users a = users b -> sessions a = sessions b ->
  loading a = loading b -> token a = token b ->
  localStorage a = localStorage b -> console a = console b ->
  network a = network b -> a = b.
Proof. destruct a, b; simpl; intros; by subst. Qed.

(** Only a truthy principal can be the target of a notification. *)
Lemma is_current_truthy (u id : value) : is_current u id = true -> truthy u = true.
Proof. unfold is_current. by intros [? _]%andb_true_iff. Qed.

Lemma is_current_null (id : value) : is_current VNull id = false.
Proof. reflexivity. Qed.

(** ** Push notifications *)

Lemma users_user_updated (st : store) (id : value) (payload : obj) :
  users (handleWsMessage (Some (user_updated id payload)) st)
  = map (fun u => if has_id id u then payload else u) (users st).
Proof. simpl. by destruct (is_current (user st) id). Qed.

Lemma users_user_deleted (st : store) (id : value) :
  users (handleWsMessage (Some (user_deleted id)) st) = drop_id id (users st).
Proof. simpl. by destruct (is_current (user st) id). Qed.

Lemma Forall2_map_self {A : Type} (R : A -> A -> Prop) (f : A -> A) (l : list A) :
  (forall x, R x (f x)) -> Forall2 R l (map f l).
Proof. intros HR. induction l; simpl; constructor; auto. Qed.

(** C2. A "user updated" notification puts the payload itself in the place
    of every entry it matches, so nothing of the old entry survives; a
    "session updated" notification keeps the matching entry and overwrites
    its [status] and [updated_at] only.  Entries that do not match are
    left as they are, in both mirrors. *)
Theorem C2_user_replaced_session_patched (st : store) :
  (forall (id : value) (payload : obj),
     Forall2 (fun old new => if has_id id old then new = payload else new = old)
       (users st)
       (users (handleWsMessage (Some (user_updated id payload)) st))) /\
  (forall (id status updated_at : value),
     Forall2 (fun old new =>
                if has_id id old then
                  get_field "status" new = status /\
                  get_field "updated_at" new = updated_at /\
                  (forall k, k <> "status" -> k <> "updated_at" ->
                     get_field k new = get_field k old /\
                     has_field k new = has_field k old)
                else new = old)
       (sessions st)
       (sessions (handleWsMessage (Some (session_updated id status updated_at)) st))).
Proof.
  split.
  - intros id payload. rewrite users_user_updated.
    apply Forall2_map_self. intros u. by destruct (has_id id u).
  - intros id status updated_at. simpl.
    apply Forall2_map_self. intros s.
    destruct (has_id id s); [apply patch_session_fields | done].
Qed.

Lemma C2_witness :
  Forall2 (fun old new => if has_id (VNum 6) old then new = [("id", VNum 6)] else new = old)
    (users signed_in)
    (users (handleWsMessage (Some (user_updated (VNum 6) [("id", VNum 6)])) signed_in)).
Proof. exact (proj1 (C2_user_replaced_session_patched signed_in) (VNum 6) [("id", VNum 6)]). Defined.

Example session_updated_runs :
  sessions (handleWsMessage
              (Some (session_updated (VNum 1) (VStr "completed") (VStr "T2")))
              signed_in)
  = [[("id", VNum 1); ("title", VStr "Intro"); ("status", VStr "completed");
      ("updated_at", VStr "T2")]].
Proof. reflexivity. Qed.

Example user_updated_runs :
  users (handleWsMessage
           (Some (user_updated (VNum 6) [("id", VNum 6); ("role", VStr "trainer")]))
           signed_in)
  = [alice; [("id", VNum 6); ("role", VStr "trainer")]].
Proof. reflexivity. Qed.

(** C10. When the principal is the target of a "user updated"
    notification, the stored principal becomes the payload; for any other
    target it stays.  The token is not touched either way. *)
Theorem C10_user_updated_principal
    (st : store) (id pid : value) (payload : obj) :
  truthy (user st) = true ->
  get_prop (user st) "id" = inr pid ->
  let st' := handleWsMessage (Some (user_updated id payload)) st in
  token st' = token st /\
  user st' = (if strict_eq pid id then VObj payload else user st) /\
  users st' = map (fun u => if has_id id u then payload else u) (users st).
Proof.
  intros Ht Hid st'. subst st'.
  rewrite users_user_updated. simpl. unfold is_current. rewrite Ht, Hid. simpl.
  by destruct (strict_eq pid id).
Qed.

Lemma C10_witness :
  truthy (user signed_in) = true /\
  get_prop (user signed_in) "id" = inr (VNum 5) /\
  let st' := handleWsMessage
               (Some (user_updated (VNum 5) [("id", VNum 5); ("role", VStr "trainer")]))
               signed_in in
  token st' = VStr "tok" /\
  user st' = VObj [("id", VNum 5); ("role", VStr "trainer")] /\
  users st' = [[("id", VNum 5); ("role", VStr "trainer")]; bob].
Proof.
  split; [reflexivity|]. split; [reflexivity|].
  exact (C10_user_updated_principal signed_in (VNum 5) (VNum 5)
           [("id", VNum 5); ("role", VStr "trainer")] eq_refl eq_refl).
Defined.

(** C9. A "deleted" notification for an identifier that no entry carries
    leaves the mirror as it is and logs nothing; and a second "deleted"
    for the same identifier changes nothing any more: applying it twice is
    applying it once, on the whole store. *)
Theorem C9_deleted_idempotent (st : store) (id : value) :
  (count_id id (users st) = 0%nat ->
     users (handleWsMessage (Some (user_deleted id)) st) = users st /\
     console (handleWsMessage (Some (user_deleted id)) st) = console st) /\
  (count_id id (sessions st) = 0%nat ->
     handleWsMessage (Some (session_deleted id)) st = st) /\
  handleWsMessage (Some (user_deleted id))
    (handleWsMessage (Some (user_deleted id)) st)
  = handleWsMessage (Some (user_deleted id)) st /\
  handleWsMessage (Some (session_deleted id))
    (handleWsMessage (Some (session_deleted id)) st)
  = handleWsMessage (Some (session_deleted id)) st.
Proof.
  repeat split.
  - rewrite users_user_deleted. by apply drop_id_absent.
  - simpl. by destruct (is_current (user st) id).
  - intros Hc. apply store_eq; simpl; try done. by apply drop_id_absent.
  - simpl. destruct (is_current (user st) id) eqn:E; simpl.
    + apply store_eq; simpl; try done. apply drop_id_idem.
    + rewrite E. apply store_eq; simpl; try done. apply drop_id_idem.
  - apply store_eq; simpl; try done. apply drop_id_idem.
Qed.

Lemma C9_witness :
  count_id (VNum 7) (users signed_in) = 0%nat /\
  count_id (VNum 7) (sessions signed_in) = 0%nat /\
  users (handleWsMessage (Some (user_deleted (VNum 7))) signed_in) = [alice; bob] /\
  handleWsMessage (Some (session_deleted (VNum 7))) signed_in = signed_in.
Proof.
  destruct (C9_deleted_idempotent signed_in (VNum 7)) as (Hu & Hs & _).
  split; [reflexivity|]. split; [reflexivity|].
  split; [exact (proj1 (Hu eq_refl)) | exact (Hs eq_refl)].
Defined.

Example deleted_twice :
  let once := handleWsMessage (Some (session_deleted (VNum 1))) signed_in in
  sessions once = [] /\ handleWsMessage (Some (session_deleted (VNum 1))) once = once.
Proof. split; reflexivity. Qed.

(** What the "user deleted" case does when the principal is its target
    (lines 58-64): the credential and the two storage slots go, the
    matching entries leave the user mirror, and nothing else is touched. *)
Lemma user_deleted_self (st : store) (id : value) :
  is_current (user st) id = true ->
  let st' := handleWsMessage (Some (user_deleted id)) st in
  user st' = VNull /\ token st' = VNull /\
  localStorage st' !! "user" = None /\ localStorage st' !! "token" = None /\
  count_id id (users st') = 0%nat /\
  sessions st' = sessions st.
Proof.
  intros Hc st'. subst st'. simpl. rewrite Hc. simpl.
  repeat split; try done.
  - apply lookup_delete_eq.
  - rewrite lookup_delete_ne by done. apply lookup_delete_eq.
  - apply count_id_drop.
Qed.

(** For any other target the credential stays. *)
Lemma user_deleted_other (st : store) (id : value) :
  is_current (user st) id = false ->
  let st' := handleWsMessage (Some (user_deleted id)) st in
  user st' = user st /\ token st' = token st /\
  localStorage st' = localStorage st.
Proof. intros Hc st'. subst st'. simpl. by rewrite Hc. Qed.

(** C1. Signed in as user 5 with one session in the mirror, a "user
    deleted" notification for 5 clears the credential, empties the storage
    and removes 5 from the user mirror, and the session mirror still holds
    its session afterwards. *)
Theorem C1_user_deleted_keeps_sessions :
  let st' := handleWsMessage (Some (user_deleted (VNum 5))) signed_in in
  user st' = VNull /\ token st' = VNull /\ localStorage st' = ∅ /\
  users st' = [bob] /\
  sessions st' = [intro_session] /\ sessions st' <> [] /\
  sessions (logout signed_in) = [].
Proof. vm_compute. repeat split; try reflexivity. discriminate. Qed.

(** C3 fails as stated: a "created" notification for an identifier that is
    already there leaves two entries with it, and an "updated" one for an
    identifier that is not there leaves none. *)
Lemma C3_counterexample :
  count_id (VNum 5) (users signed_in) = 1%nat /\
  count_id (VNum 5)
    (users (handleWsMessage
              (Some (user_created [("id", VNum 5); ("username", VStr "alice2")]))
              signed_in)) <> 1%nat /\
  count_id (VNum 7) (users signed_in) = 0%nat /\
  count_id (VNum 7)
    (users (handleWsMessage
              (Some (user_updated (VNum 7) [("id", VNum 7); ("username", VStr "carol")]))
              signed_in)) <> 1%nat.
Proof. vm_compute. repeat split; discriminate. Qed.

(** C3, amended. A "created" notification appends its payload whatever the
    mirror holds, so the number of entries with the payload's identifier
    goes up by one; an "updated" notification for an identifier that no
    entry carries leaves the mirror unchanged. *)
Theorem C3_created_appends_updated_skips (st : store) (id : value) (payload : obj) :
  users (handleWsMessage (Some (user_created payload)) st) = users st ++ [payload] /\
  sessions (handleWsMessage (Some (session_created payload)) st)
  = sessions st ++ [payload] /\
  (has_id id payload = true ->
     count_id id (users (handleWsMessage (Some (user_created payload)) st))
     = S (count_id id (users st)) /\
     count_id id (sessions (handleWsMessage (Some (session_created payload)) st))
     = S (count_id id (sessions st))) /\
  (count_id id (users st) = 0%nat ->
     users (handleWsMessage (Some (user_updated id payload)) st) = users st) /\
  (count_id id (sessions st) = 0%nat ->
     forall status updated_at,
       sessions (handleWsMessage (Some (session_updated id status updated_at)) st)
       = sessions st).
Proof.
  split; [done|]. split; [done|]. split; [|split].
  - intros Hid. simpl. rewrite !count_id_app, count_id_single, Hid. lia.
  - intros Hc. rewrite users_user_updated.
    exact (replace_absent id (fun _ => payload) (users st) Hc).
  - intros Hc status updated_at. simpl.
    exact (replace_absent id (patch_session status updated_at) (sessions st) Hc).
Qed.

Lemma C3_witness :
  has_id (VNum 5) [("id", VNum 5); ("username", VStr "alice2")] = true /\
  count_id (VNum 5)
    (users (handleWsMessage
              (Some (user_created [("id", VNum 5); ("username", VStr "alice2")]))
              signed_in)) = 2%nat /\
  count_id (VNum 7) (users signed_in) = 0%nat /\
  users (handleWsMessage
           (Some (user_updated (VNum 7) [("id", VNum 7)])) signed_in)
  = users signed_in.
Proof.
  split; [reflexivity|]. split.
  - exact (proj1 (proj1 (proj2 (proj2
      (C3_created_appends_updated_skips signed_in (VNum 5)
         [("id", VNum 5); ("username", VStr "alice2")]))) eq_refl)).
  - split; [reflexivity|].
    exact (proj1 (proj2 (proj2 (proj2
      (C3_created_appends_updated_skips signed_in (VNum 7) [("id", VNum 7)])))) eq_refl).
Defined.

(** ** The command gateway *)

(** Unfolding one monadic step. *)
Ltac run :=
  unfold command, try_catch, fetch, json, prop, gets, modify, throw,
         mbind, M_bind, mret, M_ret in *;
  simpl in *.

Section Gateway.
Context `{Runtime}.
Variable backend : request -> fetch_outcome.
Variables (label generic : string) (failure : value).
Variable req : value -> request.
Variable on_ok : response -> M value.

(** The two continuations of the source: read the body, or answer
    [true] without reading it. *)
Hypothesis on_ok_shape : on_ok = json \/ on_ok = (fun _ => mret (VBool true)).

Lemma command_unauthenticated (st : store) :
  truthy (token st) = false ->
  command backend label generic failure req on_ok st = (Ok failure, st).
Proof. intros Ht. run. by rewrite Ht. Qed.

(** Whatever the backend does, the command returns. *)
Lemma command_returns (st : store) :
  exists v st',
    command backend label generic failure req on_ok st = (Ok v, st') /\
    same_state st st'.
Proof.
  run. destruct (truthy (token st)); simpl; [|by eexists _, _].
  destruct (backend (req (token st))) as [|res]; simpl.
  { eexists _, _. split; [reflexivity | by repeat split]. }
  destruct (res_ok res); simpl.
  - destruct on_ok_shape as [-> | ->]; run.
    + destruct (res_body res); simpl; eexists _, _;
        (split; [reflexivity | by repeat split]).
    + eexists _, _. split; [reflexivity | by repeat split].
  - destruct (res_body res) as [errorData|]; simpl.
    + destruct (get_prop errorData "detail"); simpl; eexists _, _;
        (split; [reflexivity | by repeat split]).
    + eexists _, _. split; [reflexivity | by repeat split].
Qed.

(** A refusal: the reason goes to the console, the failure value to the
    caller. *)
Lemma command_refused (st : store) (errorData detail : value) :
  truthy (token st) = true ->
  backend (req (token st))
  = Responded {| res_ok := false; res_body := Some errorData |} ->
  get_prop errorData "detail" = inr detail ->
  command backend label generic failure req on_ok st
  = (Ok failure,
     log (console_error label (Error (js_or detail (VStr generic))))
       (sent (req (token st)) st)).
Proof. intros Ht Hb Hd. run. rewrite Ht. simpl. rewrite Hb. simpl. by rewrite Hd. Qed.

(** No connection: the same failure value. *)
Lemma command_rejected (st : store) :
  truthy (token st) = true ->
  backend (req (token st)) = Rejected ->
  command backend label generic failure req on_ok st
  = (Ok failure,
     log (console_error label NetworkError) (sent (req (token st)) st)).
Proof. intros Ht Hb. run. rewrite Ht. simpl. by rewrite Hb. Qed.

(** An acceptance: whatever the continuation returns. *)
Lemma command_accepted (st st' : store) (res : response) (v : value) :
  truthy (token st) = true ->
  backend (req (token st)) = Responded res ->
  res_ok res = true ->
  on_ok res (sent (req (token st)) st) = (Ok v, st') ->
  command backend label generic failure req on_ok st = (Ok v, st').
Proof.
  intros Ht Hb Hok Hk. run. rewrite Ht. simpl. rewrite Hb. simpl.
  rewrite Hok. simpl. by rewrite Hk.
Qed.
End Gateway.

Ltac gateway_cases c :=
  destruct c; simpl;
  unfold createUser, updateUserById, deleteUser,
         createSession, updateSession, deleteSession.

(** C5. Without a token each of the six commands returns its failure
    value at once: the store is exactly what it was, so nothing was
    requested and nothing logged. *)
Theorem C5_unauthenticated_no_request
    `{Runtime} (backend : request -> fetch_outcome) (c : gateway_call) (st : store) :
  truthy (token st) = false ->
  invoke backend c st = (Ok (failure_of c), st).
Proof. intros Ht. gateway_cases c; by apply command_unauthenticated. Qed.

Lemma C5_witness :
  truthy (token (logout signed_in)) = false /\
  invoke (H := Ref.runtime) (accepting (VObj bob)) (CreateUser (VObj bob)) (logout signed_in)
  = (Ok VNull, logout signed_in) /\
  network (logout signed_in) = [].
Proof.
  split; [reflexivity|]. split; [|reflexivity].
  exact (C5_unauthenticated_no_request (H := Ref.runtime) (accepting (VObj bob))
           (CreateUser (VObj bob)) (logout signed_in) eq_refl).
Defined.

(** C4 fails as stated: refused with a reason, create-user returns [null];
    the reason is in the console only. *)
Lemma C4_counterexample :
  let '(res, st') := createUser (H := Ref.runtime) refusing (VObj bob) signed_in in
  res = Ok VNull /\
  console st' = [console_error "Create user error:"
                   (Error (VStr "Username already exists"))].
Proof. vm_compute. split; reflexivity. Qed.

(** C4, amended. With a token, each of the six commands returns a value
    whatever the backend does (no answer, a refusal, a body that is not
    JSON): nothing is thrown to the caller.  When the backend refuses, the
    value returned is the bare failure value ([null], or [false] for the
    deletes); the reason, taken from [detail] or else the generic one, is
    written to the console. *)
Theorem C4_refusal_logged_not_returned
    `{Runtime} (backend : request -> fetch_outcome) (c : gateway_call) (st : store) :
  truthy (token st) = true ->
  (exists v st', invoke backend c st = (Ok v, st') /\ same_state st st') /\
  (forall errorData detail,
     (forall r, backend r = Responded {| res_ok := false; res_body := Some errorData |}) ->
     get_prop errorData "detail" = inr detail ->
     exists r,
       invoke backend c st
       = (Ok (failure_of c),
          log (console_error (label_of c)
                 (Error (js_or detail (VStr (generic_of c)))))
            (sent r st))) /\
  ((forall r, backend r = Rejected) ->
     exists r,
       invoke backend c st
       = (Ok (failure_of c),
          log (console_error (label_of c) NetworkError) (sent r st))).
Proof.
  intros Ht. split; [|split].
  - gateway_cases c; apply command_returns; auto.
  - intros errorData detail Hb Hd.
    gateway_cases c; eexists; by apply (command_refused _ _ _ _ _ _ _ errorData detail).
  - intros Hb. gateway_cases c; eexists; by apply command_rejected.
Qed.

Lemma C4_witness :
  truthy (token signed_in) = true /\
  (forall r, refusing r
     = Responded {| res_ok := false;
                    res_body := Some (VObj [("detail", VStr "Username already exists")]) |}) /\
  exists r,
    invoke (H := Ref.runtime) refusing (DeleteUser (VNum 6)) signed_in
    = (Ok (VBool false),
       log (console_error "Delete user error:"
              (Error (VStr "Username already exists")))
         (sent r signed_in)).
Proof.
  split; [reflexivity|]. split; [reflexivity|].
  exact (proj1 (proj2 (C4_refusal_logged_not_returned (H := Ref.runtime) refusing
           (DeleteUser (VNum 6)) signed_in eq_refl))
           (VObj [("detail", VStr "Username already exists")])
           (VStr "Username already exists") (fun _ => eq_refl) eq_refl).
Defined.

(** C6. With a token and a backend that accepts, each command returns its
    success value (the record of the answer, or [true] for the deletes)
    and the store differs only by the request made: both mirrors are what
    they were.  The record enters a mirror when the matching "created"
    notification is applied, and then it is there. *)
Theorem C6_success_leaves_mirrors
    `{Runtime} (backend : request -> fetch_outcome) (c : gateway_call)
    (st : store) (record : value) :
  truthy (token st) = true ->
  (forall r, backend r = Responded {| res_ok := true; res_body := Some record |}) ->
  exists r,
    invoke backend c st = (Ok (success_of c record), sent r st) /\
    users (sent r st) = users st /\ sessions (sent r st) = sessions st /\
    forall o : obj,
      sessions (handleWsMessage (Some (session_created o)) (sent r st))
      = sessions st ++ [o] /\
      users (handleWsMessage (Some (user_created o)) (sent r st))
      = users st ++ [o].
Proof.
  intros Ht Hb.
  gateway_cases c; eexists; (split; [|by repeat split]);
    (eapply command_accepted; [exact Ht | apply Hb | reflexivity | reflexivity]).
Qed.

Lemma C6_witness :
  let created : obj := [("id", VNum 2); ("title", VStr "Advanced")] in
  truthy (token signed_in) = true /\
  exists r,
    invoke (H := Ref.runtime) (accepting (VObj created)) (CreateSession (VObj [("title", VStr "Advanced")])) signed_in
    = (Ok (VObj created), sent r signed_in) /\
    sessions (sent r signed_in) = [intro_session] /\
    sessions (handleWsMessage (Some (session_created created)) (sent r signed_in))
    = [intro_session; created].
Proof.
  intros created. split; [reflexivity|].
  destruct (C6_success_leaves_mirrors (H := Ref.runtime) (accepting (VObj created))
              (CreateSession (VObj [("title", VStr "Advanced")])) signed_in
              (VObj created) eq_refl (fun _ => eq_refl)) as (r & Hr & _ & Hs & He).
  exists r. split; [exact Hr|]. split; [exact Hs|]. exact (proj1 (He created)).
Defined.

(** ** Restoring and setting the credential *)

Section Restore.
Context `{Runtime}.
Variable storage : gmap string string.

(** A slot is missing or empty: the store stays signed out. *)
Lemma restore_absent :
  present (storage !! "user") && present (storage !! "token") = false ->
  restore (initial storage) = (Ok tt, setLoading false (initial storage)).
Proof. intros Hp. unfold restore, getItem. run. by rewrite Hp. Qed.


(** Both slots are there and the principal does not parse: the effect
    throws, before [setLoading(false)]. *)
Lemma restore_malformed (s t : string) :
  storage !! "user" = Some s -> storage !! "token" = Some t ->
  s <> "" -> t <> "" -> JSON_parse s = None ->
  restore (initial storage) = (Throw SyntaxError, initial storage).
Proof.
  intros Hs Ht Hs' Ht' Hp. unfold restore, getItem. run. rewrite Hs, Ht. simpl.
  apply String.eqb_neq in Hs', Ht'. rewrite Hs', Ht'. simpl. by rewrite Hp.
Qed.
End Restore.

(** C7. With the text [undefined] in the principal slot (what [login]
    stores when the reply carries no user) and a token in the other,
    the effect throws a [SyntaxError]; the store is still loading.  A
    well-formed slot is adopted, an empty one ignored. *)
Theorem C7_restore_throws_on_malformed :
  restore (H := Ref.runtime) (initial (<["user" := "undefined"]> (<["token" := "tok"]> ∅)))
  = (Throw SyntaxError, initial (<["user" := "undefined"]> (<["token" := "tok"]> ∅))) /\
  loading (initial (<["user" := "undefined"]> (<["token" := "tok"]> ∅))) = true /\
  restore (H := Ref.runtime) (initial (<["user" := "{"]> (<["token" := "tok"]> ∅)))
  = (Throw SyntaxError, initial (<["user" := "{"]> (<["token" := "tok"]> ∅))) /\
  restore (H := Ref.runtime) (initial (localStorage signed_in))
  = (Ok tt, setLoading false (setToken (VStr "tok") (setUser (VObj alice)
                (initial (localStorage signed_in))))) /\
  restore (H := Ref.runtime) (initial (<["token" := "tok"]> ∅))
  = (Ok tt, setLoading false (initial (<["token" := "tok"]> ∅))).
Proof. vm_compute. repeat split; reflexivity. Qed.

(** The reply of [login] without a user is stored as the text
    [undefined]. *)
Example login_stores_undefined :
  let st' := (login (H := Ref.runtime)
                (accepting (VObj [("access_token", VStr "tok")]))
                (VStr "alice") (VStr "secret") (initial ∅)).2 in
  localStorage st' !! "user" = Some "undefined" /\
  localStorage st' !! "token" = Some "tok".
Proof. vm_compute. split; reflexivity. Qed.



(** On a well-shaped message the credential part of [handleWsMessage],
    run on the current principal, is [handleWsCredential] on its frame. *)
Lemma handleWsCredential_agrees (m : message) (st : store) :
  default_branch m ->
  credential_of (handleWsMessage (Some m) st)
  = handleWsCredential (user st) (frame_of m) (credential_of st).
Proof.
  destruct m; simpl; try done.
  - intros _. unfold handleWsCredential, is_current. simpl.
    destruct (truthy (user st)); simpl; [|done].
    destruct (get_prop (user st) "id") as [e|id]; simpl; [done|].
    by destruct (strict_eq id user_id).
  - intros _. unfold handleWsCredential, is_current. simpl.
    destruct (truthy (user st)); simpl; [|done].
    destruct (get_prop (user st) "id") as [e|id]; simpl; [done|].
    by destruct (strict_eq id user_id).
  - intros [Hu Hd]. unfold handleWsCredential. simpl. by rewrite Hu, Hd.
Qed.



(** Both conditions on a notification are needed.  A "user updated" frame
    aimed at the principal that carries no [user] leaves the token with an
    undefined principal. *)
Example frame_without_user :
  let c := handleWsCredential (user signed_in)
             (VObj [("type", VStr "user_updated");
                    ("data", VObj [("user_id", VNum 5)])])
             (credential_of signed_in) in
  cred_user c = VUndefined /\ cred_token c = VStr "tok" /\ ~ paired_credential c.
Proof. vm_compute. repeat split; discriminate. Qed.

(** And two well-shaped frames handled by the same callback, which still
    sees the principal it captured, leave a principal without a token. *)
Example stale_principal :
  let c := handleWsCredential (user signed_in)
             (frame_of (user_updated (VNum 5) [("id", VNum 5)]))
             (handleWsCredential (user signed_in)
                (frame_of (user_deleted (VNum 5))) (credential_of signed_in)) in
  cred_user c = VObj [("id", VNum 5)] /\ cred_token c = VNull /\
  ~ paired_credential c.
Proof. vm_compute. repeat split; discriminate. Qed.



(** * Further properties *)

(** ** Records, again *)

Lemma set_field_overwrite (k : string) (v1 v2 : value) (o : obj) :
  set_field k v2 (set_field k v1 o) = set_field k v2 o.
Proof.
  induction o as [|[k' v'] rest IH]; simpl.
  - by rewrite String.eqb_refl.
  - destruct (String.eqb k k') eqn:E; simpl; rewrite E; [done | by rewrite IH].
Qed.

(** Writing a property that is there does not move anything, so it
    commutes with writing another one. *)
Lemma set_field_swap (k k' : string) (v v' : value) (o : obj) :
  has_field k o = true -> k <> k' ->
  set_field k v (set_field k' v' o) = set_field k' v' (set_field k v o).
Proof.
  intros Hh Hne. induction o as [|[k0 v0] rest IH]; simpl in *; [done|].
  destruct (String.eqb k k0) eqn:E; destruct (String.eqb k' k0) eqn:E'; simpl;
    rewrite ?E, ?E'; try done.
  - apply String.eqb_eq in E, E'. congruence.
  - simpl in Hh. by rewrite IH.
Qed.

Lemma patch_session_twice (s1 u1 s2 u2 : value) (s : obj) :
  patch_session s2 u2 (patch_session s1 u1 s) = patch_session s2 u2 s.
Proof.
  unfold patch_session.
  rewrite (set_field_swap "status" "updated_at") by (apply has_set_same || done).
  by rewrite !set_field_overwrite.
Qed.

Lemma has_id_patch (id status updated_at : value) (s : obj) :
  has_id id (patch_session status updated_at s) = has_id id s.
Proof.
  unfold has_id, patch_session. by rewrite !get_set_other.
Qed.

Lemma count_id_map (id : value) (f : obj -> obj) (l : list obj) :
  (forall u, has_id id (f u) = has_id id u) ->
  count_id id (map f l) = count_id id l.
Proof.
  intros Hf. unfold count_id. induction l as [|u l IH]; simpl; [done|].
  rewrite Hf. destruct (has_id id u); simpl; by rewrite IH.
Qed.

Lemma drop_id_app (id : value) (l1 l2 : list obj) :
  drop_id id (l1 ++ l2) = drop_id id l1 ++ drop_id id l2.
Proof. apply List.filter_app. Qed.

(** ** Notifications, again *)

(** X1. A notification never issues a request and never touches
    [loading].  It either leaves the token and the storage as they are,
    or (the forced sign-out) ends with no principal, no token and neither
    storage slot.  A user notification leaves the session mirror alone; a
    session notification, an unknown one and an undecodable frame leave
    the user mirror and the principal alone. *)
Theorem notification_frame (event_data : option message) (st : store) :
  let st' := handleWsMessage event_data st in
  network st' = network st /\ loading st' = loading st /\
  ((token st' = token st /\ localStorage st' = localStorage st) \/
   (user st' = VNull /\ token st' = VNull /\
    localStorage st' !! "user" = None /\ localStorage st' !! "token" = None)) /\
  match event_data with
  | Some (user_created _) | Some (user_updated _ _) | Some (user_deleted _) =>
      sessions st' = sessions st
  | _ => users st' = users st /\ user st' = user st
  end.
Proof.
  destruct event_data as [[]|]; simpl;
    try (repeat split; try done; by left).
  - destruct (is_current (user st) user_id); repeat split; try done; by left.
  - destruct (is_current (user st) user_id); simpl; repeat split; try done.
    + right. repeat split; try done.
      * apply lookup_delete_eq.
      * rewrite lookup_delete_ne by done. apply lookup_delete_eq.
    + by left.
Qed.

(** X2. A "session updated" notification changes no identifier: for every
    identifier the mirror holds as many entries with it as before, and the
    mirror keeps its length. *)
Theorem session_updated_keeps_identifiers
    (st : store) (id status updated_at id' : value) :
  let st' := handleWsMessage (Some (session_updated id status updated_at)) st in
  count_id id' (sessions st') = count_id id' (sessions st) /\
  length (sessions st') = length (sessions st).
Proof.
  simpl. split; [|by rewrite length_map].
  apply count_id_map. intros s. destruct (has_id id s); [apply has_id_patch | done].
Qed.

(** X3. The last "session updated" wins: two of them for the same
    identifier leave the store as the second alone would. *)
Theorem session_updated_last_wins (st : store) (id s1 u1 s2 u2 : value) :
  handleWsMessage (Some (session_updated id s2 u2))
    (handleWsMessage (Some (session_updated id s1 u1)) st)
  = handleWsMessage (Some (session_updated id s2 u2)) st.
Proof.
  apply store_eq; simpl; try done.
  rewrite List.map_map. apply List.map_ext. intros s.
  destruct (has_id id s) eqn:E.
  - by rewrite has_id_patch, E, patch_session_twice.
  - by rewrite E.
Qed.

(** X4. The last "user updated" wins too, provided the first payload
    carries the identifier it is addressed to; this holds for the mirror
    and for the stored principal alike. *)
Theorem user_updated_last_wins (st : store) (id : value) (p1 p2 : obj) :
  has_id id p1 = true ->
  handleWsMessage (Some (user_updated id p2))
    (handleWsMessage (Some (user_updated id p1)) st)
  = handleWsMessage (Some (user_updated id p2)) st.
Proof.
  intros Hp. 
  assert (Hmap : map (fun u => if has_id id u then p2 else u)
                   (map (fun u => if has_id id u then p1 else u) (users st))
                 = map (fun u => if has_id id u then p2 else u) (users st)).
  { rewrite List.map_map. apply List.map_ext. intros u.
    destruct (has_id id u) eqn:E; [by rewrite Hp | by rewrite E]. }
  assert (Hcur : is_current (VObj p1) id = true) by exact Hp.
  simpl. destruct (is_current (user st) id) eqn:E; simpl.
  - rewrite Hcur. apply store_eq; simpl; done.
  - rewrite E. apply store_eq; simpl; done.
Qed.

Lemma user_updated_last_wins_witness :
  has_id (VNum 5) [("id", VNum 5); ("role", VStr "trainer")] = true /\
  handleWsMessage (Some (user_updated (VNum 5) [("id", VNum 5); ("role", VStr "trainee")]))
    (handleWsMessage
       (Some (user_updated (VNum 5) [("id", VNum 5); ("role", VStr "trainer")])) signed_in)
  = handleWsMessage
      (Some (user_updated (VNum 5) [("id", VNum 5); ("role", VStr "trainee")])) signed_in.
Proof.
  split; [reflexivity|].
  exact (user_updated_last_wins signed_in (VNum 5)
           [("id", VNum 5); ("role", VStr "trainer")]
           [("id", VNum 5); ("role", VStr "trainee")] eq_refl).
Defined.

(** X5. A "deleted" notification removes exactly the entries that carry
    its identifier, duplicates included: an entry is in the mirror
    afterwards if and only if it was there and carries another
    identifier. *)
Theorem deleted_removes_exactly (st : store) (id : value) (u : obj) :
  (In u (users (handleWsMessage (Some (user_deleted id)) st))
   <-> In u (users st) /\ has_id id u = false) /\
  (In u (sessions (handleWsMessage (Some (session_deleted id)) st))
   <-> In u (sessions st) /\ has_id id u = false) /\
  count_id id (users (handleWsMessage (Some (user_deleted id)) st)) = 0%nat /\
  count_id id (sessions (handleWsMessage (Some (session_deleted id)) st)) = 0%nat.
Proof.
  rewrite users_user_deleted. simpl. unfold drop_id.
  rewrite !List.filter_In, !negb_true_iff.
  repeat split; try tauto; apply count_id_drop.
Qed.

(** X6. "Created" followed by "deleted" for the same identifier gives the
    store back, when the identifier was new to the mirror (and, for a
    user, is not the principal's). *)
Theorem created_then_deleted (st : store) (id : value) (record : obj) :
  has_id id record = true ->
  (count_id id (sessions st) = 0%nat ->
     handleWsMessage (Some (session_deleted id))
       (handleWsMessage (Some (session_created record)) st) = st) /\
  (count_id id (users st) = 0%nat -> is_current (user st) id = false ->
     handleWsMessage (Some (user_deleted id))
       (handleWsMessage (Some (user_created record)) st) = st).
Proof.
  intros Hid.
  assert (Hdrop : forall l, count_id id l = 0%nat -> drop_id id (l ++ [record]) = l).
  { intros l Hl. rewrite drop_id_app, (drop_id_absent id l Hl).
    unfold drop_id. simpl. rewrite Hid. simpl. apply app_nil_r. }
  split.
  - intros Hc. apply store_eq; simpl; try done. by apply Hdrop.
  - intros Hc Hcur. simpl. rewrite Hcur. apply store_eq; simpl; try done.
    by apply Hdrop.
Qed.

Lemma created_then_deleted_witness :
  has_id (VNum 9) [("id", VNum 9); ("title", VStr "Lab")] = true /\
  count_id (VNum 9) (sessions signed_in) = 0%nat /\
  handleWsMessage (Some (session_deleted (VNum 9)))
    (handleWsMessage (Some (session_created [("id", VNum 9); ("title", VStr "Lab")]))
       signed_in) = signed_in.
Proof.
  split; [reflexivity|]. split; [reflexivity|].
  exact (proj1 (created_then_deleted signed_in (VNum 9)
                  [("id", VNum 9); ("title", VStr "Lab")] eq_refl) eq_refl).
Defined.

(** ** Signing out *)

Lemma storage_after_logout (m : gmap string string) (k : string) :
  delete "token" (delete "user" m) !! k
  = if decide (k = "user" \/ k = "token") then None else m !! k.
Proof.
  rewrite !lookup_delete.
  destruct (decide ("token" = k)) as [Ht|Ht];
    destruct (decide ("user" = k)) as [Hu|Hu];
    destruct (decide (_ \/ _)) as [[Hk|Hk]|Hk]; try done; try congruence;
    exfalso; apply Hk; auto.
Qed.

(** X7. [logout] ends with no principal, no token, two empty mirrors and
    neither storage slot, whatever the store held; it keeps every other
    storage key, requests nothing and logs nothing; and a second [logout]
    changes nothing. *)
Theorem logout_clears (st : store) :
  user (logout st) = VNull /\ token (logout st) = VNull /\
  users (logout st) = [] /\ sessions (logout st) = [] /\
  localStorage (logout st) !! "user" = None /\
  localStorage (logout st) !! "token" = None /\
  (forall k, k <> "user" -> k <> "token" ->
     localStorage (logout st) !! k = localStorage st !! k) /\
  network (logout st) = network st /\ console (logout st) = console st /\
  logout (logout st) = logout st.
Proof.
  repeat split; simpl.
  - rewrite storage_after_logout. destruct (decide _) as [|Hk]; [done|].
    exfalso. apply Hk. by left.
  - rewrite storage_after_logout. destruct (decide _) as [|Hk]; [done|].
    exfalso. apply Hk. by right.
  - intros k Hu Ht. rewrite storage_after_logout.
    by destruct (decide _) as [[|]|].
  - apply store_eq; simpl; try done. apply map_eq. intros k.
    rewrite !storage_after_logout. by destruct (decide _).
Qed.

Lemma invoke_without_token `{Runtime} (backend : request -> fetch_outcome)
    (c : gateway_call) (st : store) :
  truthy (token st) = false -> invoke backend c st = (Ok (failure_of c), st).
Proof. intros Ht. gateway_cases c; by apply command_unauthenticated. Qed.

Lemma fetchInitialData_without_token `{Runtime} (backend : request -> fetch_outcome)
    (st : store) :
  truthy (token st) = false -> fetchInitialData backend st = Some st.
Proof. intros Ht. unfold fetchInitialData. by rewrite Ht. Qed.

(** X8. Once signed out, by [logout] or by a "user deleted" notification
    aimed at the principal, nothing reaches the backend any more: each of
    the six commands returns its failure value and the bulk load returns,
    both leaving the store exactly as it is. *)
Theorem signed_out_is_idle `{Runtime} (backend : request -> fetch_outcome)
    (c : gateway_call) (st : store) :
  invoke backend c (logout st) = (Ok (failure_of c), logout st) /\
  fetchInitialData backend (logout st) = Some (logout st) /\
  (forall id,
     is_current (user st) id = true ->
     let st' := handleWsMessage (Some (user_deleted id)) st in
     invoke backend c st' = (Ok (failure_of c), st') /\
     fetchInitialData backend st' = Some st').
Proof.
  split; [by apply invoke_without_token|].
  split; [by apply fetchInitialData_without_token|].
  intros id Hc st'.
  assert (Ht : truthy (token st') = false).
  { subst st'. simpl. by rewrite Hc. }
  split; [by apply invoke_without_token | by apply fetchInitialData_without_token].
Qed.

Lemma signed_out_is_idle_witness :
  is_current (user signed_in) (VNum 5) = true /\
  let st' := handleWsMessage (Some (user_deleted (VNum 5))) signed_in in
  invoke (H := Ref.runtime) (accepting VNull) (DeleteSession (VNum 1)) st'
  = (Ok (VBool false), st') /\
  fetchInitialData (H := Ref.runtime) (accepting VNull) st' = Some st'.
Proof.
  split; [reflexivity|].
  exact (proj2 (proj2 (signed_out_is_idle (H := Ref.runtime) (accepting VNull)
                         (DeleteSession (VNum 1)) signed_in)) (VNum 5) eq_refl).
Defined.

(** X9. After [logout], and after a "user deleted" notification aimed at
    the principal, a fresh mount finds nothing to restore: the effect
    completes and the store is signed out, with [loading] off. *)
Theorem signed_out_survives_reload `{Runtime} (st : store) :
  restore (initial (localStorage (logout st)))
  = (Ok tt, setLoading false (initial (localStorage (logout st)))) /\
  (forall id,
     is_current (user st) id = true ->
     let storage := localStorage (handleWsMessage (Some (user_deleted id)) st) in
     restore (initial storage) = (Ok tt, setLoading false (initial storage))).
Proof.
  split.
  - apply restore_absent.
    assert (Hu : localStorage (logout st) !! "user" = None).
    { simpl. rewrite storage_after_logout. destruct (decide _) as [|Hk]; [done|].
      exfalso. apply Hk. by left. }
    by rewrite Hu.
  - intros id Hc storage. apply restore_absent.
    pose proof (user_deleted_self st id Hc) as Hs. cbv zeta in Hs.
    destruct Hs as (_ & _ & Hu & _). subst storage. by rewrite Hu.
Qed.

Lemma signed_out_survives_reload_witness :
  is_current (user signed_in) (VNum 5) = true /\
  let storage := localStorage (handleWsMessage (Some (user_deleted (VNum 5))) signed_in) in
  restore (H := Ref.runtime) (initial storage)
  = (Ok tt, setLoading false (initial storage)).
Proof.
  split; [reflexivity|].
  exact (proj2 (signed_out_survives_reload (H := Ref.runtime) signed_in)
           (VNum 5) eq_refl).
Defined.

(** ** Signing in *)

Lemma login_on_roomy `{Runtime} (backend : request -> fetch_outcome)
    (username password : value) (st : store) :
  login_on backend roomy username password st = login backend username password st.
Proof. reflexivity. Qed.

(** X10. [login] never throws, sends exactly one request (without an
    Authorization header) and never touches the mirrors.  It ends in one
    of three ways: it reports success, logs nothing and both storage
    slots hold a value; or it reports failure and the principal, the
    token and the storage are what they were; or, only when the storage
    refuses one of the two writes, it reports "Login error" although the
    principal and the token of the reply are already in place, the token
    slot being unwritten. *)
Theorem login_outcomes `{Runtime} (backend : request -> fetch_outcome)
    (accepts : gmap string string -> string -> string -> bool)
    (username password : value) (st : store) :
  exists (o : obj) (st' : store),
    login_on backend accepts username password st = (Ok (VObj o), st') /\
    network st' = network st ++ [login_request username password] /\
    req_headers (login_request username password)
    = [("Content-Type", "application/json")] /\
    users st' = users st /\ sessions st' = sessions st /\
    loading st' = loading st /\
    ((get_field "success" o = VBool true /\ console st' = console st /\
      is_Some (localStorage st' !! "user") /\
      is_Some (localStorage st' !! "token")) \/
     (get_field "success" o = VBool false /\
      user st' = user st /\ token st' = token st /\
      localStorage st' = localStorage st) \/
     (get_field "success" o = VBool false /\
      get_field "error" o = VStr "Login error" /\
      console st' = console st ++ [console_error "Login error:" QuotaExceededError] /\
      localStorage st' !! "token" = localStorage st !! "token" /\
      (exists m k s, accepts m k s = false) /\
      exists data,
        backend (login_request username password)
        = Responded {| res_ok := true; res_body := Some data |} /\
        get_prop data "user" = inr (user st') /\
        get_prop data "access_token" = inr (token st'))).
Proof.
  unfold login_on, setItem_or_throw. fold (login_request username password). run.
  destruct (backend _) as [|[ok body]] eqn:Eb; simpl.
  { eexists _, _. split; [reflexivity|]. repeat split. right. by left. }
  destruct ok; simpl.
  - destruct body as [data|]; simpl.
    2:{ eexists _, _. split; [reflexivity|]. repeat split. right. by left. }
    destruct (get_prop data "user") as [e|u] eqn:Eu; simpl.
    { eexists _, _. split; [reflexivity|]. repeat split. right. by left. }
    destruct (get_prop data "access_token") as [e|t] eqn:Et; simpl.
    { destruct data; simpl in *; discriminate. }
    destruct (accepts (localStorage st) "user" _) eqn:Ea1; simpl.
    2:{ eexists _, _. split; [reflexivity|]. repeat split. right. right.
        repeat split; simpl; eauto. }
    destruct (accepts _ "token" _) eqn:Ea2; simpl.
    2:{ eexists _, _. split; [reflexivity|]. repeat split. right. right.
        repeat split; simpl; eauto. by rewrite lookup_insert_ne. }
    destruct (get_prop data "force_password_change") eqn:Ef; simpl.
    { destruct data; simpl in *; discriminate. }
    eexists _, _. split; [reflexivity|]. repeat split. left.
    repeat split; simpl.
    + rewrite lookup_insert_ne by done. rewrite lookup_insert_eq. eauto.
    + rewrite lookup_insert_eq. eauto.
  - destruct body as [errorData|]; simpl.
    2:{ eexists _, _. split; [reflexivity|]. repeat split. right. by left. }
    destruct (get_prop errorData "detail"); simpl;
      eexists _, _; (split; [reflexivity|]); repeat split; right; by left.
Qed.

(** On a full storage an accepted [login] reports failure with the new
    principal and token in place and nothing stored. *)
Example login_on_full_storage :
  let '(res, st') :=
    login_on (H := Ref.runtime)
      (accepting (VObj [("user", VObj bob); ("access_token", VStr "t2")])) full
      (VStr "bob") (VStr "secret") (initial ∅) in
  res = Ok (VObj [("success", VBool false); ("error", VStr "Login error")]) /\
  user st' = VObj bob /\ token st' = VStr "t2" /\ localStorage st' = ∅ /\
  console st' = [console_error "Login error:" QuotaExceededError].
Proof. vm_compute. repeat split; reflexivity. Qed.

(** X11. A refused [login] hands the reason to the caller, in the [error]
    field of its result ([detail], or "Login failed" when that is falsy),
    and logs nothing; an unreachable backend gives "Login error" and one
    console line. *)
Theorem login_failure_reason `{Runtime} (backend : request -> fetch_outcome)
    (username password : value) (st : store) :
  (forall errorData detail,
     backend (login_request username password)
     = Responded {| res_ok := false; res_body := Some errorData |} ->
     get_prop errorData "detail" = inr detail ->
     login backend username password st
     = (Ok (VObj [("success", VBool false);
                  ("error", js_or detail (VStr "Login failed"))]),
        sent (login_request username password) st)) /\
  (backend (login_request username password) = Rejected ->
   login backend username password st
   = (Ok (VObj [("success", VBool false); ("error", VStr "Login error")]),
      log (console_error "Login error:" NetworkError)
        (sent (login_request username password) st))).
Proof.
  split.
  - intros errorData detail Hb Hd. unfold login.
    fold (login_request username password). run. rewrite Hb. simpl. by rewrite Hd.
  - intros Hb. unfold login. fold (login_request username password). run.
    by rewrite Hb.
Qed.

Lemma login_failure_reason_witness :
  refusing (login_request (H := Ref.runtime) (VStr "bob") (VStr "wrong"))
  = Responded {| res_ok := false;
                 res_body := Some (VObj [("detail", VStr "Username already exists")]) |} /\
  login (H := Ref.runtime) refusing (VStr "bob") (VStr "wrong") signed_in
  = (Ok (VObj [("success", VBool false);
               ("error", VStr "Username already exists")]),
     sent (login_request (H := Ref.runtime) (VStr "bob") (VStr "wrong")) signed_in) /\
  unreachable (login_request (H := Ref.runtime) (VStr "bob") (VStr "wrong")) = Rejected /\
  login (H := Ref.runtime) unreachable (VStr "bob") (VStr "wrong") signed_in
  = (Ok (VObj [("success", VBool false); ("error", VStr "Login error")]),
     log (console_error "Login error:" NetworkError)
       (sent (login_request (H := Ref.runtime) (VStr "bob") (VStr "wrong")) signed_in)).
Proof.
  split; [reflexivity|]. split.
  - exact (proj1 (login_failure_reason (H := Ref.runtime) refusing
                    (VStr "bob") (VStr "wrong") signed_in)
             (VObj [("detail", VStr "Username already exists")])
             (VStr "Username already exists") eq_refl eq_refl).
  - split; [reflexivity|].
    exact (proj2 (login_failure_reason (H := Ref.runtime) unreachable
                    (VStr "bob") (VStr "wrong") signed_in) eq_refl).
Defined.



(** ** The command gateway, again *)

Section GatewayRequests.
Context `{Runtime}.
Variable backend : request -> fetch_outcome.
Variables (label generic : string) (failure : value).
Variable req : value -> request.
Variable on_ok : response -> M value.
Hypothesis on_ok_shape : on_ok = json \/ on_ok = (fun _ => mret (VBool true)).

(** With a token a command sends its one request and logs at most one
    line. *)
Lemma command_one_request (st : store) :
  truthy (token st) = true ->
  exists v st',
    command backend label generic failure req on_ok st = (Ok v, st') /\
    network st' = network st ++ [req (token st)] /\
    (console st' = console st \/
     exists e, console st' = console st ++ [console_error label e]).
Proof.
  intros Ht. run. rewrite Ht. simpl.
  destruct (backend (req (token st))) as [|res]; simpl.
  { eexists _, _. split; [reflexivity|]. split; [done|]. right. by eexists. }
  destruct (res_ok res); simpl.
  - destruct on_ok_shape as [-> | ->]; run.
    + destruct (res_body res); simpl; eexists _, _;
        (split; [reflexivity|]); (split; [done|]);
        [by left | right; by eexists].
    + eexists _, _. split; [reflexivity|]. split; [done|]. by left.
  - destruct (res_body res) as [errorData|]; simpl.
    + destruct (get_prop errorData "detail"); simpl; eexists _, _;
        (split; [reflexivity|]); (split; [done|]); right; by eexists.
    + eexists _, _. split; [reflexivity|]. split; [done|]. right. by eexists.
Qed.

End GatewayRequests.

(** X13. With a token, whatever the backend does, a command sends exactly
    one request, with the method of its kind and the token as bearer in
    the Authorization header (never the empty header); a delete sends no
    body.  It logs at most one line, under its own label. *)
Theorem command_sends_one_request `{Runtime} (backend : request -> fetch_outcome)
    (c : gateway_call) (st : store) :
  truthy (token st) = true ->
  exists v st' r,
    invoke backend c st = (Ok v, st') /\
    network st' = network st ++ [r] /\
    req_method r = method_of c /\
    req_headers r = [("Content-Type", "application/json");
                     ("Authorization", "Bearer " +:+ ToString (token st))] /\
    (reads_body c = false -> req_body r = None) /\
    (console st' = console st \/
     exists e, console st' = console st ++ [console_error (label_of c) e]).
Proof.
  intros Ht.
  gateway_cases c;
    (edestruct command_one_request as (v & st' & -> & Hn & Hc);
     [| exact Ht |
      exists v, st'; eexists; split; [reflexivity|]; split; [exact Hn|];
      simpl; unfold authHeaders; rewrite Ht;
      repeat split; try done; exact Hc]); auto.
Qed.

Lemma command_sends_one_request_witness :
  truthy (token signed_in) = true /\
  exists v st' r,
    invoke (H := Ref.runtime) unreachable (DeleteUser (VNum 6)) signed_in = (Ok v, st') /\
    network st' = network signed_in ++ [r] /\
    req_method r = "DELETE" /\
    req_headers r = [("Content-Type", "application/json");
                     ("Authorization", "Bearer tok")] /\
    (reads_body (DeleteUser (VNum 6)) = false -> req_body r = None) /\
    (console st' = console signed_in \/
     exists e, console st' = console signed_in ++ [console_error "Delete user error:" e]).
Proof.
  split; [reflexivity|].
  exact (command_sends_one_request (H := Ref.runtime) unreachable
           (DeleteUser (VNum 6)) signed_in eq_refl).
Defined.

(** X14. An accepted command whose reply has no readable body: a create
    or an update fails ([null], with the parse error logged) although the
    backend accepted it, while a delete, which never reads the body,
    returns [true] and logs nothing. *)
Theorem accepted_without_body `{Runtime} (backend : request -> fetch_outcome)
    (c : gateway_call) (st : store) :
  truthy (token st) = true ->
  (forall r, backend r = Responded {| res_ok := true; res_body := None |}) ->
  exists r,
    invoke backend c st
    = if reads_body c
      then (Ok VNull, log (console_error (label_of c) SyntaxError) (sent r st))
      else (Ok (VBool true), sent r st).
Proof.
  intros Ht Hb.
  gateway_cases c; eexists; run; rewrite Ht; simpl; rewrite Hb; reflexivity.
Qed.

Lemma accepted_without_body_witness :
  truthy (token signed_in) = true /\
  (exists r,
     invoke (H := Ref.runtime) (answering {| res_ok := true; res_body := None |})
       (CreateUser (VObj bob)) signed_in
     = (Ok VNull, log (console_error "Create user error:" SyntaxError) (sent r signed_in))) /\
  (exists r,
     invoke (H := Ref.runtime) (answering {| res_ok := true; res_body := None |})
       (DeleteUser (VNum 6)) signed_in
     = (Ok (VBool true), sent r signed_in)).
Proof.
  split; [reflexivity|]. split.
  - exact (accepted_without_body (H := Ref.runtime)
             (answering {| res_ok := true; res_body := None |})
             (CreateUser (VObj bob)) signed_in eq_refl (fun _ => eq_refl)).
  - exact (accepted_without_body (H := Ref.runtime)
             (answering {| res_ok := true; res_body := None |})
             (DeleteUser (VNum 6)) signed_in eq_refl (fun _ => eq_refl)).
Defined.

(** X15. A refusal whose reason cannot be read does not fall back on the
    generic message: with a body that is not JSON the console gets the
    parse error, with a body that is [null] it gets the type error of
    reading [detail] from it.  The generic message is used only when the
    body is readable and its [detail] is missing or falsy.  The caller
    gets the failure value in all three cases. *)
Theorem refused_without_reason `{Runtime} (backend : request -> fetch_outcome)
    (c : gateway_call) (st : store) :
  truthy (token st) = true ->
  ((forall r, backend r = Responded {| res_ok := false; res_body := None |}) ->
   exists r, invoke backend c st
             = (Ok (failure_of c),
                log (console_error (label_of c) SyntaxError) (sent r st))) /\
  ((forall r, backend r = Responded {| res_ok := false; res_body := Some VNull |}) ->
   exists r, invoke backend c st
             = (Ok (failure_of c),
                log (console_error (label_of c) TypeError) (sent r st))) /\
  (forall (body : obj),
     truthy (get_field "detail" body) = false ->
     (forall r, backend r = Responded {| res_ok := false; res_body := Some (VObj body) |}) ->
     exists r, invoke backend c st
               = (Ok (failure_of c),
                  log (console_error (label_of c) (Error (VStr (generic_of c))))
                    (sent r st))).
Proof.
  intros Ht. split; [|split].
  - intros Hb. gateway_cases c; eexists; run; rewrite Ht; simpl; rewrite Hb;
      reflexivity.
  - intros Hb. gateway_cases c; eexists; run; rewrite Ht; simpl; rewrite Hb;
      reflexivity.
  - intros body Hd Hb.
    gateway_cases c; eexists; run; rewrite Ht; simpl; rewrite Hb; simpl;
      unfold js_or; rewrite Hd; reflexivity.
Qed.

Lemma refused_without_reason_witness :
  truthy (token signed_in) = true /\
  (exists r,
     invoke (H := Ref.runtime) (answering {| res_ok := false; res_body := Some VNull |})
       (UpdateSession (VNum 1) (VObj [("status", VStr "completed")])) signed_in
     = (Ok VNull, log (console_error "Update session error:" TypeError) (sent r signed_in))) /\
  truthy (get_field "detail" [("message", VStr "no")]) = false /\
  (exists r,
     invoke (H := Ref.runtime)
       (answering {| res_ok := false;
                     res_body := Some (VObj [("message", VStr "no")]) |})
       (DeleteSession (VNum 1)) signed_in
     = (Ok (VBool false),
        log (console_error "Delete session error:"
               (Error (VStr "Failed to delete session"))) (sent r signed_in))).
Proof.
  split; [reflexivity|]. split; [|split; [reflexivity|]].
  - exact (proj1 (proj2 (refused_without_reason (H := Ref.runtime)
             (answering {| res_ok := false; res_body := Some VNull |})
             (UpdateSession (VNum 1) (VObj [("status", VStr "completed")]))
             signed_in eq_refl)) (fun _ => eq_refl)).
  - exact (proj2 (proj2 (refused_without_reason (H := Ref.runtime)
             (answering {| res_ok := false;
                           res_body := Some (VObj [("message", VStr "no")]) |})
             (DeleteSession (VNum 1)) signed_in eq_refl))
             [("message", VStr "no")] eq_refl (fun _ => eq_refl)).
Defined.

(** ** The bulk load *)

(** X16. The bulk load is all or nothing.  It never touches the
    credential, the storage or [loading].  With a token it always sends
    both requests, users first, each with the token as bearer; then either
    it logs nothing (the mirrors now hold the two replies), or it logs
    exactly one line and both mirrors are what they were, even when one of
    the two replies was fine. *)
Theorem bulk_load_all_or_nothing `{Runtime} (backend : request -> fetch_outcome)
    (st st' : store) :
  fetchInitialData backend st = Some st' ->
  truthy (token st) = true ->
  user st' = user st /\ token st' = token st /\
  localStorage st' = localStorage st /\ loading st' = loading st /\
  network st' = network st ++ [users_request (token st); sessions_request (token st)] /\
  req_headers (users_request (token st))
  = [("Content-Type", "application/json");
     ("Authorization", "Bearer " +:+ ToString (token st))] /\
  (console st' = console st \/
   (users st' = users st /\ sessions st' = sessions st /\
    exists e, console st' = console st
                            ++ [console_error "Error fetching initial data:" e])).
Proof.
  unfold fetchInitialData, fetchInitialData_bodies, fetch_both.
  intros Hf Ht. rewrite Ht in Hf. simpl in Hf. run.
  assert (Hnet : forall (l : list request) a b, (l ++ [a]) ++ [b] = l ++ [a; b]).
  { intros l a b. by rewrite <- app_assoc. }
  assert (Hhd : authHeaders (token st)
                = [("Content-Type", "application/json");
                   ("Authorization", "Bearer " +:+ ToString (token st))]).
  { unfold authHeaders. by rewrite Ht. }
  destruct (backend (users_request (token st))) as [|ra];
    [|destruct (backend (sessions_request (token st))) as [|rb]];
    simpl in Hf.
  1,2: simplify_eq; simpl; repeat split; try done; try apply Hnet;
       right; repeat split; by eexists.
  destruct (res_ok ra), (res_ok rb); simpl in Hf.
  2,3,4: simplify_eq; simpl; repeat split; try done; try apply Hnet;
         right; repeat split; by eexists.
  destruct (res_body ra) as [ua|]; simpl in Hf.
  2:{ simplify_eq; simpl; repeat split; try done; try apply Hnet;
      right; repeat split; by eexists. }
  destruct (res_body rb) as [sa|]; simpl in Hf.
  2:{ simplify_eq; simpl; repeat split; try done; try apply Hnet;
      right; repeat split; by eexists. }
  destruct (as_records ua), (as_records sa); simplify_eq.
  simpl. repeat split; try done; try apply Hnet. by left.
Qed.

Lemma bulk_load_all_or_nothing_witness :
  let backend := fun r : request =>
    if String.eqb (req_url r) (API_BASE_URL +:+ "/users/")
    then Responded {| res_ok := true; res_body := Some (VArr [VObj bob]) |}
    else Responded {| res_ok := false; res_body := None |} in
  let st' := log (console_error "Error fetching initial data:"
                    (Error (VStr "Failed to fetch data")))
               (sent (sessions_request (H := Ref.runtime) (VStr "tok"))
                  (sent (users_request (H := Ref.runtime) (VStr "tok")) signed_in)) in
  fetchInitialData (H := Ref.runtime) backend signed_in = Some st' /\
  truthy (token signed_in) = true /\
  users st' = [alice; bob] /\ sessions st' = [intro_session].
Proof.
  intros backend st'.
  assert (Hf : fetchInitialData (H := Ref.runtime) backend signed_in = Some st')
    by reflexivity.
  split; [exact Hf|]. split; [reflexivity|].
  destruct (bulk_load_all_or_nothing (H := Ref.runtime) backend signed_in st'
              Hf eq_refl) as (_ & _ & _ & _ & _ & _ & [Hc | (Hu & Hs & _)]).
  - discriminate Hc.
  - split; [exact Hu | exact Hs].
Defined.

(** X17. When both replies are ok and are arrays of records, the mirrors
    afterwards are exactly the two replies: nothing of what they held
    before is left, whatever it was. *)
Theorem bulk_load_replaces `{Runtime} (backend : request -> fetch_outcome)
    (st : store) (users_body sessions_body : value) (us ss : list obj) :
  truthy (token st) = true ->
  backend (users_request (token st))
  = Responded {| res_ok := true; res_body := Some users_body |} ->
  backend (sessions_request (token st))
  = Responded {| res_ok := true; res_body := Some sessions_body |} ->
  as_records users_body = Some us ->
  as_records sessions_body = Some ss ->
  exists st',
    fetchInitialData backend st = Some st' /\
    users st' = us /\ sessions st' = ss /\ console st' = console st /\
    user st' = user st /\ token st' = token st.
Proof.
  intros Ht Hu Hs Hus Hss.
  unfold fetchInitialData, fetchInitialData_bodies, fetch_both. rewrite Ht. run.
  rewrite Hu, Hs. simpl. rewrite Hus, Hss. by eexists.
Qed.

Lemma bulk_load_replaces_witness :
  let backend := serving (VArr [VObj bob]) (VArr []) in
  truthy (token signed_in) = true /\
  as_records (VArr [VObj bob]) = Some [bob] /\
  as_records (VArr []) = Some [] /\
  exists st',
    fetchInitialData (H := Ref.runtime) backend signed_in = Some st' /\
    users st' = [bob] /\ sessions st' = [] /\ console st' = [] /\
    user st' = VObj alice /\ token st' = VStr "tok".
Proof.
  intros backend. split; [reflexivity|]. split; [reflexivity|].
  split; [reflexivity|].
  exact (bulk_load_replaces (H := Ref.runtime) backend signed_in
           (VArr [VObj bob]) (VArr []) [bob] []
           eq_refl eq_refl eq_refl eq_refl eq_refl).
Defined.

(** ** Restoring, again *)

(** X18. The restoring effect reads the storage and writes none of it;
    it leaves the mirrors alone, requests nothing and logs nothing.  When
    it completes, [loading] is off and the token is either untouched
    (together with the principal) or the non-empty text of the token
    slot; when it throws, it is a parse error and the store is exactly as
    it was, [loading] included. *)
Theorem restore_frame `{Runtime} (st : store) :
  let '(r, st') := restore st in
  users st' = users st /\ sessions st' = sessions st /\
  localStorage st' = localStorage st /\
  console st' = console st /\ network st' = network st /\
  match r with
  | Ok _ =>
      loading st' = false /\
      ((user st' = user st /\ token st' = token st) \/
       exists t, t <> "" /\ localStorage st !! "token" = Some t /\
                 token st' = VStr t /\
                 exists s, localStorage st !! "user" = Some s /\
                           JSON_parse s = Some (user st'))
  | Throw e => e = SyntaxError /\ st' = st
  end.
Proof.
  unfold restore, getItem. run.
  destruct (localStorage st !! "user") as [s|] eqn:Es; simpl.
  2:{ repeat split; by left. }
  destruct (localStorage st !! "token") as [t|] eqn:Et; simpl.
  2:{ rewrite andb_false_r. repeat split; by left. }
  destruct (String.eqb s "") eqn:Hs; simpl.
  { repeat split; by left. }
  destruct (String.eqb t "") eqn:Ht; simpl.
  { repeat split; by left. }
  destruct (JSON_parse s) as [u|] eqn:Ep; simpl.
  - repeat split. right. exists t. apply String.eqb_neq in Ht.
    repeat split; try done. by exists s.
  - repeat split.
Qed.
